(** * Asset-tracking dashboard: the API layer, the location edit form,
      the address form and the location map, embedded and verified.

    Sources embedded here:
    - [src/lib/api.ts]                               (the CRUD functions)
    - [src/components/locations/LocationEditForm.tsx] (handleSubmit)
    - [src/components/locations/LocationCard.tsx]     (criticalityColors)
    - [src/components/address/AddressForm.tsx]        (validateAndUpdate)
    - the location map component                      (the point-adding effect)

    The backend client, the clock, the console, the geocoder and the
    data-fetching cache are outside the repository: the program talks to
    them through effects, and every theorem quantifies over all the answers
    they can give. *)

From Stdlib Require Import QArith.
From stdpp Require Import base option list strings gmap.

Local Open Scope string_scope.
Local Open Scope list_scope.
Local Open Scope Z_scope.

(** ** JavaScript values *)

(** A JS number: a double is NaN, an infinity, or a finite value, and every
    finite double is a rational. *)
Inductive JsNumber :=
| NaN
| NegInfinity
| Finite (q : Q)
| PosInfinity.

Inductive JsValue :=
| JUndefined
| JNull
| JBool (b : bool)
| JNum (n : JsNumber)
| JStr (s : string).

(** A plain JS object: property name to value. *)
Abbreviation Obj := (gmap string JsValue).

(** ToBoolean. *)
Definition truthy (v : JsValue) : bool :=
  match v with
  | JUndefined | JNull => false
  | JBool b => b
  | JNum NaN => false
  | JNum (Finite q) => negb (Qnum q =? 0)
  | JNum _ => true
  | JStr s => negb (String.eqb s "")
  end.

(** [o.p]: reading an absent property gives [undefined]. *)
Definition get (o : Obj) (p : string) : JsValue := default JUndefined (o !! p).

(** [a || b]. *)
Definition js_or (a b : JsValue) : JsValue := if truthy a then a else b.

(** [isNaN(n)] on a number. *)
Definition isNaN (n : JsNumber) : bool :=
  match n with NaN => true | _ => false end.

(** [a < b] on numbers: every comparison with NaN is false. *)
Definition num_lt (a b : JsNumber) : bool :=
  match a, b with
  | NaN, _ | _, NaN => false
  | NegInfinity, NegInfinity => false
  | NegInfinity, _ => true
  | _, NegInfinity => false
  | PosInfinity, _ => false
  | Finite _, PosInfinity => true
  | Finite x, Finite y => match (x ?= y)%Q with Lt => true | _ => false end
  end.

Definition num_gt (a b : JsNumber) : bool := num_lt b a.

(** [Math.min] and [Math.max] of two numbers. *)
Definition Math_min (a b : JsNumber) : JsNumber :=
  match a, b with
  | NaN, _ | _, NaN => NaN
  | _, _ => if num_lt b a then b else a
  end.

Definition Math_max (a b : JsNumber) : JsNumber :=
  match a, b with
  | NaN, _ | _, NaN => NaN
  | _, _ => if num_lt a b then b else a
  end.

(** ** Errors and results *)

Inductive Error :=
| BackendError (message : string)   (* an error object the backend returned *)
| NewError (message : string).      (* [new Error(message)] *)

(** The [{ data, error }] pair of the backend client: exactly one is set. *)
Inductive Result (A : Type) :=
| Ok (data : A)
| Err (error : Error).
Arguments Ok {A} data.
Arguments Err {A} error.

(** ** The query builder *)

Inductive Filter :=
| FEq (column value : string)       (* .eq(column, value) *)
| FOr (filters : string).           (* .or(filters) *)

Inductive Verb :=
| Select (columns : string)
| Insert (rows : list Obj)
| Update (values : Obj)
| Rpc (args : Obj).

(** A request under construction.  [target] is the table of [from] or the
    function of [rpc]; [returning] records the [.select()] chained after an
    insert or update. *)
Record Query := mkQuery {
  target : string;
  verb : Verb;
  returning : bool;
  filters : list Filter;
  ordering : option (string * bool);
  throws : bool
}.

(** [.single()], [.maybeSingle()], or neither. *)
Inductive Card := Many | Single | MaybeSingle.

Definition DataOf (R : Type) (c : Card) : Type :=
  match c with
  | Many => list R
  | Single => R
  | MaybeSingle => option R
  end.

(** The builder's methods, chained with [|>] as the source chains them
    with dots. *)
Module qb.
Definition from (table : string) : string := table.

(** [.select(columns)] on a table.  The client strips the white space of
    [columns] before sending, so the template literals of the source are
    written here without their line breaks and indentation. *)
Definition select (columns : string) (table : string) : Query :=
  mkQuery table (Select columns) false [] None false.

Definition insert (rows : list Obj) (table : string) : Query :=
  mkQuery table (Insert rows) false [] None false.

Definition update (values : Obj) (table : string) : Query :=
  mkQuery table (Update values) false [] None false.

Definition rpc (fn : string) (args : Obj) : Query :=
  mkQuery fn (Rpc args) false [] None false.

(** [.select()] chained after an insert or update. *)
Definition select_back (q : Query) : Query :=
  mkQuery (target q) (verb q) true (filters q) (ordering q) (throws q).

Definition add_filter (f : Filter) (q : Query) : Query :=
  mkQuery (target q) (verb q) (returning q) (filters q ++ [f])
          (ordering q) (throws q).

Definition eq (column value : string) : Query → Query :=
  add_filter (FEq column value).

Definition or (fs : string) : Query → Query := add_filter (FOr fs).

Definition order (column : string) (ascending : bool) (q : Query) : Query :=
  mkQuery (target q) (verb q) (returning q) (filters q)
          (Some (column, ascending)) (throws q).

Definition throwOnError (q : Query) : Query :=
  mkQuery (target q) (verb q) (returning q) (filters q) (ordering q) true.
End qb.

Notation "q |> f" := (f q) (at level 45, left associativity, only parsing).

(** [if (filters?.field) { query = f field query }]: the branch is taken
    when the field is present and not the empty string. *)
Definition if_truthy (field : option string) (f : string → Query → Query)
    (query : Query) : Query :=
  match field with
  | Some s => if truthy (JStr s) then f s query else query
  | None => query
  end.

(** ** Effects *)

Module User.
Record t := mk { id : string }.
End User.

(** What the geocoder resolves to, when it finds the address. *)
Module Coords.
Record t := mk { longitude : JsValue; latitude : JsValue }.
End Coords.

Module AddressFormData.
Record t := mk {
  street : string;
  city : string;
  state : string;
  zip_code : string;
  country : string
}.
End AddressFormData.

(** What the program asks of the world around it. *)
Inductive Effect :=
| AuthGetUser                                  (* supabase.auth.getUser() *)
| Fetch (q : Query) (c : Card)                 (* awaiting a built query *)
| DateNow                                      (* new Date().toISOString() *)
| ConsoleError (msg : string) (e : Error)
| GeocodeAddress (address : string)            (* lib/maps geocodeAddress *)
| ValidateAddress (a : AddressFormData.t)      (* lib/maps validateAddress *)
| PreventDefault
| InvalidateQueries (key : string)
| OnClose.

Definition Reply (R : Type) (e : Effect) : Type :=
  match e with
  | AuthGetUser => Result (option User.t)
  | Fetch _ c => Result (DataOf R c)
  | DateNow => string
  | GeocodeAddress _ => Result (option Coords.t)
  | ValidateAddress _ => Result bool
  | _ => unit
  end.

(** A program over rows of type [R] producing an [A]: it returns, throws
    (a rejected promise), or performs an effect and continues with the
    reply. *)
Inductive Prog (R A : Type) :=
| Ret (a : A)
| Throw (e : Error)
| Vis (e : Effect) (k : Reply R e → Prog R A).
Arguments Ret {R A} a.
Arguments Throw {R A} e.
Arguments Vis {R A} e k.

Fixpoint bind {R A B} (p : Prog R A) (f : A → Prog R B) : Prog R B :=
  match p with
  | Ret a => f a
  | Throw e => Throw e
  | Vis e k => Vis e (λ r, bind (k r) f)
  end.

#[global] Instance prog_ret {R} : MRet (Prog R) := λ A a, Ret a.
#[global] Instance prog_bind {R} : MBind (Prog R) := λ A B f p, bind p f.
#[global] Instance prog_fmap {R} : FMap (Prog R) :=
  λ A B f p, bind p (λ a, Ret (f a)).

(** [try { p } catch (e) { h e }]. *)
Fixpoint try_catch {R A} (p : Prog R A) (h : Error → Prog R A) : Prog R A :=
  match p with
  | Ret a => Ret a
  | Throw e => h e
  | Vis e k => Vis e (λ r, try_catch (k r) h)
  end.

Definition perform {R} (e : Effect) : Prog R (Reply R e) := Vis e Ret.

(** [await query]: with [.throwOnError()] the client throws the error
    instead of returning it in the pair. *)
Definition await {R} (q : Query) (c : Card) : Prog R (Result (DataOf R c)) :=
  Vis (Fetch q c) (λ r,
    match r with
    | Ok d => Ret (Ok d)
    | Err e => if throws q then Throw e else Ret (Err e)
    end).

(** [if (error) throw error; return data]. *)
Definition throw_or_return {R A} (r : Result A) : Prog R A :=
  match r with
  | Err error => Throw error
  | Ok data => Ret data
  end.

(** ** Running a program against a world *)

Inductive Outcome (A : Type) :=
| Resolved (a : A)
| Rejected (e : Error).
Arguments Resolved {A} a.
Arguments Rejected {A} e.

(** One step of interaction: the effect and the reply it got. *)
Inductive Event (R : Type) :=
| Ev (e : Effect) (r : Reply R e).
Arguments Ev {R} e r.

(** A world with state [S] answers every effect. *)
Definition World (R S : Type) : Type := ∀ e : Effect, S → Reply R e * S.

Fixpoint exec {R S A} (w : World R S) (p : Prog R A) (s : S)
  : Outcome A * list (Event R) * S :=
  match p with
  | Ret a => (Resolved a, [], s)
  | Throw e => (Rejected e, [], s)
  | Vis e k =>
      let '(r, s1) := w e s in
      let '(o, t, s2) := exec w (k r) s1 in
      (o, Ev e r :: t, s2)
  end.

Definition outcome {R S A} (w : World R S) (p : Prog R A) (s : S) : Outcome A :=
  (exec w p s).1.1.

Definition trace {R S A} (w : World R S) (p : Prog R A) (s : S) : list (Event R) :=
  (exec w p s).1.2.

(** ** src/lib/api.ts *)

Module CompanyFilters.
Record t := mk {
  search : option string;
  state : option string;
  city : option string
}.
End CompanyFilters.

Module LocationFilters.
Record t := mk {
  search : option string;
  state : option string;
  city : option string;
  criticality : option string;
  company_id : option string
}.
End LocationFilters.

Module CircuitFilters.
Record t := mk {
  search : option string;
  carrier : option string;
  type : option string;
  status : option string;
  location_id : option string
}.
End CircuitFilters.

Module DashboardFilters.
Record t := mk {
  company_id : option string;
  location_id : option string
}.
End DashboardFilters.

(** *** Companies *)

Definition getCompanies_query (filters : option CompanyFilters.t) : Query :=
  let query := qb.from "companies"
    |> qb.select ("id,name,street_address,address_city,address_state," +:+
                  "address_zip,address_country,phone,email,website," +:+
                  "created_at,updated_at") in
  let query := if_truthy (filters ≫= CompanyFilters.search) (λ search,
    qb.or ("name.ilike.%" +:+ search +:+ "%," +:+
           "address_city.ilike.%" +:+ search +:+ "%," +:+
           "address_state.ilike.%" +:+ search +:+ "%")) query in
  let query := if_truthy (filters ≫= CompanyFilters.state)
                 (qb.eq "address_state") query in
  let query := if_truthy (filters ≫= CompanyFilters.city)
                 (qb.eq "address_city") query in
  query |> qb.order "name" true.

Definition getCompanies (filters : option CompanyFilters.t) : Prog Obj (list Obj) :=
  r ← await (getCompanies_query filters) Many;
  throw_or_return r.

Definition getCompany (id : string) : Prog Obj Obj :=
  r ← await (qb.from "companies" |> qb.select "*" |> qb.eq "id" id) Single;
  throw_or_return r.

Definition createCompany (company : Obj) : Prog Obj Obj :=
  r ← await (qb.from "companies" |> qb.insert [company] |> qb.select_back) Single;
  throw_or_return r.

Definition updateCompany (id : string) (company : Obj) : Prog Obj Obj :=
  now ← perform DateNow;
  r ← await (qb.from "companies"
             |> qb.update (<["updated_at" := JStr now]> company)
             |> qb.eq "id" id
             |> qb.select_back) Single;
  throw_or_return r.

(** *** Locations *)

Definition updateLocation (id : string) (location : Obj) : Prog Obj Obj :=
  now ← perform DateNow;
  r ← await (qb.from "locations"
             |> qb.update (<["updated_at" := JStr now]> location)
             |> qb.eq "id" id
             |> qb.select_back) Single;
  throw_or_return r.

Definition getLocations_query (filters : option LocationFilters.t) : Query :=
  let query := qb.from "locations"
    |> qb.select ("id,name,address,city,state,zip_code,country,criticality," +:+
                  "site_description,critical_processes,active_users," +:+
                  "num_servers,hosted_applications,longitude,latitude," +:+
                  "created_at,updated_at,company_id," +:+
                  "company:companies(id,name)") in
  let query := if_truthy (filters ≫= LocationFilters.search) (λ search,
    qb.or ("name.ilike.%" +:+ search +:+ "%," +:+
           "address.ilike.%" +:+ search +:+ "%," +:+
           "city.ilike.%" +:+ search +:+ "%," +:+
           "state.ilike.%" +:+ search +:+ "%")) query in
  let query := if_truthy (filters ≫= LocationFilters.state)
                 (qb.eq "state") query in
  let query := if_truthy (filters ≫= LocationFilters.city)
                 (qb.eq "city") query in
  let query := if_truthy (filters ≫= LocationFilters.criticality)
                 (qb.eq "criticality") query in
  let query := if_truthy (filters ≫= LocationFilters.company_id)
                 (qb.eq "company_id") query in
  query |> qb.order "name" true |> qb.throwOnError.

Definition getLocations (filters : option LocationFilters.t) : Prog Obj (list Obj) :=
  r ← await (getLocations_query filters) Many;
  throw_or_return r.

Definition getLocation (id : string) : Prog Obj Obj :=
  r ← await (qb.from "locations"
             |> qb.select "*,company:companies(*)"
             |> qb.eq "id" id) Single;
  throw_or_return r.

Definition createLocation (location : Obj) : Prog Obj Obj :=
  r ← await (qb.from "locations" |> qb.insert [location] |> qb.select_back) Single;
  throw_or_return r.

(** *** Circuits *)

Definition getCircuits_query (filters : option CircuitFilters.t) : Query :=
  let query := qb.from "circuits"
    |> qb.select "*,location:locations(name,company:companies(name))" in
  let query := if_truthy (filters ≫= CircuitFilters.search) (λ search,
    qb.or ("carrier.ilike.%" +:+ search +:+ "%," +:+
           "type.ilike.%" +:+ search +:+ "%," +:+
           "bandwidth.ilike.%" +:+ search +:+ "%")) query in
  let query := if_truthy (filters ≫= CircuitFilters.carrier)
                 (qb.eq "carrier") query in
  let query := if_truthy (filters ≫= CircuitFilters.type)
                 (qb.eq "type") query in
  let query := if_truthy (filters ≫= CircuitFilters.status)
                 (qb.eq "status") query in
  let query := if_truthy (filters ≫= CircuitFilters.location_id)
                 (qb.eq "location_id") query in
  query |> qb.order "carrier" true.

Definition getCircuits (filters : option CircuitFilters.t) : Prog Obj (list Obj) :=
  r ← await (getCircuits_query filters) Many;
  throw_or_return r.

Definition getCircuit (id : string) : Prog Obj Obj :=
  r ← await (qb.from "circuits"
             |> qb.select "*,location:locations(*,company:companies(*))"
             |> qb.eq "id" id) Single;
  throw_or_return r.

Definition createCircuit (circuit : Obj) : Prog Obj Obj :=
  r ← await (qb.from "circuits" |> qb.insert [circuit] |> qb.select_back) Single;
  throw_or_return r.

Definition updateCircuit (id : string) (circuit : Obj) : Prog Obj Obj :=
  now ← perform DateNow;
  r ← await (qb.from "circuits"
             |> qb.update (<["updated_at" := JStr now]> circuit)
             |> qb.eq "id" id
             |> qb.select_back) Single;
  throw_or_return r.

(** *** User profiles *)

Definition updateUserProfile (data : Obj) : Prog Obj Obj :=
  u ← perform AuthGetUser;
  match u with
  | Err authError => Throw authError
  | Ok None => Throw (NewError "No authenticated user")
  | Ok (Some user) =>
      now ← perform DateNow;
      r ← await (qb.from "user_profiles"
                 |> qb.update (<["updated_at" := JStr now]> data)
                 |> qb.eq "user_id" (User.id user)
                 |> qb.select_back) Single;
      throw_or_return r
  end.

(** *** Dashboard statistics *)

(** A row of the statistics query, as the [Circuit] interface types its two
    columns: [status] a string, [monthlycost] a number, here an exact
    integer amount, or [None] when the column is null or missing. *)
Record CircuitStat := {
  status : string;
  monthlycost : option Z
}.

Record DashboardStats := {
  totalCircuits : nat;
  activeCircuits : nat;
  inactiveCircuits : nat;
  totalMonthlyCost : Z
}.

(** [n || d] on a nullable number: null, undefined and 0 are falsy. *)
Definition num_or (n : option Z) (d : Z) : Z :=
  match n with
  | Some v => if v =? 0 then d else v
  | None => d
  end.

Definition getDashboardStats_query (filters : option DashboardFilters.t) : Query :=
  let query := qb.from "circuits"
    |> qb.select "status,monthlycost,location:locations!inner(id,company_id)" in
  let query := if_truthy (filters ≫= DashboardFilters.location_id)
                 (qb.eq "location_id") query in
  let query := if_truthy (filters ≫= DashboardFilters.company_id)
                 (qb.eq "location.company_id") query in
  query.

Definition getDashboardStats (filters : option DashboardFilters.t)
    : Prog CircuitStat DashboardStats :=
  r ← await (getDashboardStats_query filters) Many;
  circuits ← throw_or_return r;
  let totalCircuits := length circuits in
  let activeCircuits :=
    length (List.filter (λ c, String.eqb (status c) "Active") circuits) in
  let inactiveCircuits :=
    length (List.filter (λ c, String.eqb (status c) "Inactive") circuits) in
  let totalMonthlyCost :=
    fold_left (λ sum c, sum + num_or (monthlycost c) 0) circuits 0 in
  Ret {| totalCircuits := totalCircuits;
         activeCircuits := activeCircuits;
         inactiveCircuits := inactiveCircuits;
         totalMonthlyCost := totalMonthlyCost |}.

(** *** The current user's profile *)

Definition getCurrentUserProfile : Prog Obj Obj :=
  u ← perform AuthGetUser;
  match u with
  | Err authError => Throw authError
  | Ok None => Throw (NewError "No authenticated user")
  | Ok (Some user) =>
      r ← await (qb.from "user_profiles"
                 |> qb.select "*"
                 |> qb.eq "user_id" (User.id user)) MaybeSingle;
      match r with
      | Err error =>
          _ ← perform (ConsoleError "Error fetching user profile:" error);
          Throw (NewError "Failed to fetch user profile")
      | Ok None =>
          (* Create profile for new user *)
          r' ← await (qb.from "user_profiles"
                      |> qb.insert [ {[ "user_id" := JStr (User.id user);
                                        "role" := JStr "viewer" ]} ]
                      |> qb.select_back) Single;
          match r' with
          | Err createError =>
              _ ← perform (ConsoleError "Error creating user profile:" createError);
              Throw (NewError "Failed to create user profile")
          | Ok newProfile => Ret newProfile
          end
      | Ok (Some data) => Ret data
      end
  end.

Definition getUserProfiles : Prog Obj (list Obj) :=
  r ← await (qb.from "user_profiles"
             |> qb.select "*,user:auth.users!user_id(email,last_sign_in_at)"
             |> qb.order "created_at" false) Many;
  throw_or_return r.

Inductive Role := admin | viewer.

Definition role_name (role : Role) : string :=
  match role with admin => "admin" | viewer => "viewer" end.

Definition updateUserRole (userId : string) (role : Role) : Prog Obj Obj :=
  r ← await (qb.from "user_profiles"
             |> qb.update {[ "role" := JStr (role_name role) ]}
             |> qb.eq "user_id" userId
             |> qb.select_back) Single;
  throw_or_return r.

(** *** Environment variables *)

Definition getEnvironmentVariable (key : string) : Prog Obj JsValue :=
  try_catch
    (r ← await (qb.rpc "get_environment_variable" {[ "var_key" := JStr key ]}
                |> qb.throwOnError) Single;
     data ← throw_or_return r;
     Ret (js_or (get data "value") JNull))
    (λ error,
       _ ← perform (ConsoleError
              ("Error fetching environment variable " +:+ key +:+ ":") error);
       Ret JNull).

(** *** Every exported operation of the API module *)

Inductive ApiOp :=
| OpGetCompanies (filters : option CompanyFilters.t)
| OpGetCompany (id : string)
| OpCreateCompany (company : Obj)
| OpUpdateCompany (id : string) (company : Obj)
| OpUpdateLocation (id : string) (location : Obj)
| OpGetLocations (filters : option LocationFilters.t)
| OpGetLocation (id : string)
| OpCreateLocation (location : Obj)
| OpGetCircuits (filters : option CircuitFilters.t)
| OpGetCircuit (id : string)
| OpCreateCircuit (circuit : Obj)
| OpUpdateCircuit (id : string) (circuit : Obj)
| OpUpdateUserProfile (data : Obj)
| OpGetDashboardStats (filters : option DashboardFilters.t)
| OpGetCurrentUserProfile
| OpGetUserProfiles
| OpUpdateUserRole (userId : string) (role : Role)
| OpGetEnvironmentVariable (key : string).

(** The type of the rows the operation's table holds. *)
Definition row_of (op : ApiOp) : Type :=
  match op with
  | OpGetDashboardStats _ => CircuitStat
  | _ => Obj
  end.

(** What the operation resolves to. *)
Inductive ApiValue (R : Type) :=
| VRow (row : R)
| VRows (rows : list R)
| VStats (stats : DashboardStats)
| VJs (v : JsValue).
Arguments VRow {R} row.
Arguments VRows {R} rows.
Arguments VStats {R} stats.
Arguments VJs {R} v.

Definition run (op : ApiOp) : Prog (row_of op) (ApiValue (row_of op)) :=
  match op return Prog (row_of op) (ApiValue (row_of op)) with
  | OpGetCompanies filters => VRows <$> getCompanies filters
  | OpGetCompany id => VRow <$> getCompany id
  | OpCreateCompany company => VRow <$> createCompany company
  | OpUpdateCompany id company => VRow <$> updateCompany id company
  | OpUpdateLocation id location => VRow <$> updateLocation id location
  | OpGetLocations filters => VRows <$> getLocations filters
  | OpGetLocation id => VRow <$> getLocation id
  | OpCreateLocation location => VRow <$> createLocation location
  | OpGetCircuits filters => VRows <$> getCircuits filters
  | OpGetCircuit id => VRow <$> getCircuit id
  | OpCreateCircuit circuit => VRow <$> createCircuit circuit
  | OpUpdateCircuit id circuit => VRow <$> updateCircuit id circuit
  | OpUpdateUserProfile data => VRow <$> updateUserProfile data
  | OpGetDashboardStats filters => VStats <$> getDashboardStats filters
  | OpGetCurrentUserProfile => VRow <$> getCurrentUserProfile
  | OpGetUserProfiles => VRows <$> getUserProfiles
  | OpUpdateUserRole userId role => VRow <$> updateUserRole userId role
  | OpGetEnvironmentVariable key => VJs <$> getEnvironmentVariable key
  end.

(** ** The Location record *)

(** The [Location] interface, with the [longitude] and [latitude] columns
    that [getLocations] selects and the map reads. *)
Module Location.
Record t := mk {
  id : string;
  name : string;
  address : string;
  city : string;
  state : string;
  zip_code : string;
  country : string;
  criticality : string;
  created_at : string;
  updated_at : string;
  site_description : option string;
  critical_processes : option string;
  active_users : JsNumber;
  num_servers : JsNumber;
  hosted_applications : option string;
  company_id : string;
  longitude : JsValue;
  latitude : JsValue
}.
End Location.

(** ** src/components/locations/LocationCard.tsx *)

(** The property names every object literal inherits from
    [Object.prototype]. *)
Definition Object_prototype : list string :=
  [ "constructor"; "hasOwnProperty"; "isPrototypeOf"; "propertyIsEnumerable";
    "toLocaleString"; "toString"; "valueOf"; "__proto__";
    "__defineGetter__"; "__defineSetter__";
    "__lookupGetter__"; "__lookupSetter__" ].

(** What [literal[key] || fallback] evaluates to when the literal's own
    values are non-empty strings. *)
Inductive ClassValue :=
| ClassName (s : string)
| Inherited (member : string).    (* a member of Object.prototype: truthy *)

Definition literal_or (literal : gmap string string) (key fallback : string)
    : ClassValue :=
  match literal !! key with
  | Some s => if truthy (JStr s) then ClassName s else ClassName fallback
  | None =>
      if bool_decide (key ∈ Object_prototype) then Inherited key
      else ClassName fallback
  end.

Definition criticalityColors (location : Location.t) : ClassValue :=
  literal_or
    {[ "High" := "text-red-500 bg-red-50 dark:bg-red-900/20";
       "Medium" := "text-yellow-500 bg-yellow-50 dark:bg-yellow-900/20";
       "Low" := "text-green-500 bg-green-50 dark:bg-green-900/20" ]}
    (Location.criticality location)
    "text-gray-500 bg-gray-50 dark:bg-gray-900/20".

(** ** src/components/locations/LocationEditForm.tsx *)

Module FormData.
Record t := mk {
  name : string;
  address : string;
  city : string;
  state : string;
  zip_code : string;
  site_description : string;
  critical_processes : string;
  active_users : JsValue;
  num_servers : JsValue;
  hosted_applications : string;
  country : string;
  criticality : string;
  company_id : string
}.

(** The state object, as spread into a payload. *)
Definition to_obj (f : t) : Obj :=
  {[ "name" := JStr (name f);
     "address" := JStr (address f);
     "city" := JStr (city f);
     "state" := JStr (state f);
     "zip_code" := JStr (zip_code f);
     "site_description" := JStr (site_description f);
     "critical_processes" := JStr (critical_processes f);
     "active_users" := active_users f;
     "num_servers" := num_servers f;
     "hosted_applications" := JStr (hosted_applications f);
     "country" := JStr (country f);
     "criticality" := JStr (criticality f);
     "company_id" := JStr (company_id f) ]}.
End FormData.

(** [s || ''] on a nullable string. *)
Definition str_or_empty (s : option string) : string := default "" s.

(** The initial [useState] value. *)
Definition initialFormData (location : Location.t) : FormData.t :=
  {| FormData.name := Location.name location;
     FormData.address := Location.address location;
     FormData.city := Location.city location;
     FormData.state := Location.state location;
     FormData.zip_code := Location.zip_code location;
     FormData.site_description := str_or_empty (Location.site_description location);
     FormData.critical_processes := str_or_empty (Location.critical_processes location);
     FormData.active_users :=
       js_or (JNum (Location.active_users location)) (JNum (Finite 0));
     FormData.num_servers :=
       js_or (JNum (Location.num_servers location)) (JNum (Finite 0));
     FormData.hosted_applications := str_or_empty (Location.hosted_applications location);
     FormData.country := Location.country location;
     FormData.criticality := Location.criticality location;
     FormData.company_id := Location.company_id location |}.

(** The [name] attributes of the inputs wired to [handleChange]. *)
Inductive InputName :=
| in_company_id | in_name | in_site_description | in_critical_processes
| in_num_servers | in_active_users | in_hosted_applications | in_criticality.

(** [setFormData(prev => ({ ...prev, [name]: value }))]; the value of an
    input element is a string. *)
Definition handleChange (name : InputName) (value : string) (prev : FormData.t)
    : FormData.t :=
  let 'FormData.mk n a c s z sd cp au ns ha co cr ci := prev in
  match name with
  | in_company_id => FormData.mk n a c s z sd cp au ns ha co cr value
  | in_name => FormData.mk value a c s z sd cp au ns ha co cr ci
  | in_site_description => FormData.mk n a c s z value cp au ns ha co cr ci
  | in_critical_processes => FormData.mk n a c s z sd value au ns ha co cr ci
  | in_num_servers => FormData.mk n a c s z sd cp au (JStr value) ha co cr ci
  | in_active_users => FormData.mk n a c s z sd cp (JStr value) ns ha co cr ci
  | in_hosted_applications => FormData.mk n a c s z sd cp au ns value co cr ci
  | in_criticality => FormData.mk n a c s z sd cp au ns ha co value ci
  end.

(** The [<option>] values of the criticality [<select>]. *)
Definition criticality_options : list string := ["Low"; "Medium"; "High"].

(** The [onChange] handed to the address form. *)
Definition handleAddressChange (a : AddressFormData.t) (prev : FormData.t)
    : FormData.t :=
  let 'FormData.mk n _ _ _ _ sd cp au ns ha _ cr ci := prev in
  FormData.mk n (AddressFormData.street a) (AddressFormData.city a)
    (AddressFormData.state a) (AddressFormData.zip_code a)
    sd cp au ns ha (AddressFormData.country a) cr ci.

(** [mutationFn: () => updateLocation(location.id, formData)]: the function
    declares no parameter, so the variables handed to it are dropped. *)
Definition mutationFn (location : Location.t) (formData : FormData.t)
    (_variables : Obj) : Prog Obj Obj :=
  updateLocation (Location.id location) (FormData.to_obj formData).

Definition onSuccess : Prog Obj unit :=
  _ ← perform (InvalidateQueries "locations");
  perform OnClose.

(** [mutate(variables)] of the data-fetching library: call the mutation
    function with the variables, then [onSuccess]; a failure stays in the
    mutation's state and is not thrown. *)
Definition mutate (fn : Obj → Prog Obj Obj) (success : Prog Obj unit)
    (variables : Obj) : Prog Obj unit :=
  try_catch (_ ← fn variables; success) (λ _, Ret ()).

(** [coords?.longitude]. *)
Definition opt_longitude (coords : option Coords.t) : JsValue :=
  from_option Coords.longitude JUndefined coords.
Definition opt_latitude (coords : option Coords.t) : JsValue :=
  from_option Coords.latitude JUndefined coords.

Definition fullAddress (formData : FormData.t) : string :=
  FormData.address formData +:+ ", " +:+ FormData.city formData +:+ ", " +:+
  FormData.state formData +:+ " " +:+ FormData.zip_code formData.

(** The variables [handleSubmit] hands to [mutate]. *)
Definition submit_variables (formData : FormData.t) (coords : option Coords.t)
    : Obj :=
  <["latitude" := opt_latitude coords]>
    (<["longitude" := opt_longitude coords]> (FormData.to_obj formData)).

Definition handleSubmit (location : Location.t) (formData : FormData.t)
    : Prog Obj unit :=
  _ ← perform PreventDefault;
  (* Geocode the address before updating the location *)
  g ← perform (GeocodeAddress (fullAddress formData));
  coords ← throw_or_return g;
  mutate (mutationFn location formData) onSuccess
         (submit_variables formData coords).

(** ** src/components/address/AddressForm.tsx *)

Module AddressForm.
(** The component's three [useState] cells. *)
Record State := mkState {
  isAutocompleteEnabled : bool;
  isValidating : bool;
  validationError : option string
}.

Definition setIsValidating (b : bool) (st : State) : State :=
  mkState (isAutocompleteEnabled st) b (validationError st).

Definition setValidationError (e : option string) (st : State) : State :=
  mkState (isAutocompleteEnabled st) (isValidating st) e.

Definition validateAndUpdate (newAddress : AddressFormData.t) (st : State)
    : Prog Obj State :=
  let st := setIsValidating true st in
  let st := setValidationError None st in
  st ← try_catch
         (r ← perform (ValidateAddress newAddress);
          isValid ← throw_or_return r;
          if negb isValid
          then Ret (setValidationError (Some "Please enter a valid address") st)
          else Ret st)
         (λ error,
            _ ← perform (ConsoleError "Address validation failed:" error);
            Ret st);
  (* finally *)
  Ret (setIsValidating false st).

(** The effect that runs when [value] or [isAutocompleteEnabled] changes. *)
Definition onValueChange (value : AddressFormData.t) (st : State)
    : Prog Obj State :=
  if negb (isAutocompleteEnabled st)
     && truthy (JStr (AddressFormData.street value))
     && truthy (JStr (AddressFormData.city value))
     && truthy (JStr (AddressFormData.state value))
     && truthy (JStr (AddressFormData.zip_code value))
  then validateAndUpdate value st
  else Ret st.
End AddressForm.

(** ** The location map: adding the points *)

Definition num (z : Z) : JsNumber := Finite (inject_Z z).

Module atlas.
(** A position is [[longitude, latitude]]. *)
Definition Position : Type := JsNumber * JsNumber.

Record BoundingBox := mkBoundingBox {
  getSouthWest : Position;
  getNorthEast : Position
}.

(** A point feature with the properties the component attaches. *)
Record Feature := mkFeature {
  point : Position;
  prop_id : string;
  prop_name : string;
  prop_icon : string * bool;       (* the arguments of LocationMarker *)
  prop_coordinates : Position;
  prop_selected : bool;
  prop_criticality : string
}.

Record CameraOptions := mkCamera {
  bounds : BoundingBox;
  padding : Z;
  type : string
}.
End atlas.

Module LocationMap.
(** What the effect leaves behind: the bounds it accumulated, the two data
    sources, the locations it warned about, and the camera it set. *)
Record State := mkState {
  mapBounds : option atlas.BoundingBox;
  dataSource : list atlas.Feature;
  clusterSource : list atlas.Feature;
  warned : list Location.t;
  camera : option atlas.CameraOptions
}.

Section Effect.
(** The runtime's [parseFloat]. *)
Variable parseFloat : JsValue → JsNumber.
Variable selectedLocationId : option string.

Definition is_selected (location : Location.t) : bool :=
  match selectedLocationId with
  | Some sel => String.eqb (Location.id location) sel
  | None => false
  end.

(** The body of [locations.forEach(location => ...)]. *)
Definition addLocation (st : State) (location : Location.t) : State :=
  if negb (truthy (Location.longitude location))
     || negb (truthy (Location.latitude location))
  then st
  else
    let lon := parseFloat (Location.longitude location) in
    let lat := parseFloat (Location.latitude location) in
    (* Validate coordinates *)
    if isNaN lon || isNaN lat
       || num_lt lon (num (-180)) || num_gt lon (num 180)
       || num_lt lat (num (-90)) || num_gt lat (num 90)
    then mkState (mapBounds st) (dataSource st) (clusterSource st)
                 (warned st ++ [location]) (camera st)
    else
      let coordinates := (lon, lat) in
      (* Update bounds to include this point *)
      let mapBounds' :=
        match mapBounds st with
        | None => atlas.mkBoundingBox coordinates coordinates
        | Some b =>
            let ne := atlas.getNorthEast b in
            let sw := atlas.getSouthWest b in
            atlas.mkBoundingBox
              (Math_min sw.1 lon, Math_min sw.2 lat)
              (Math_max ne.1 lon, Math_max ne.2 lat)
        end in
      let point :=
        atlas.mkFeature coordinates
          (Location.id location) (Location.name location)
          (Location.criticality location, is_selected location)
          coordinates (is_selected location)
          (Location.criticality location) in
      mkState (Some mapBounds')
              (dataSource st ++ [point]) (clusterSource st ++ [point])
              (warned st) (camera st).

(** The effect once the map is ready: clear both sources, add the
    points, fit the camera. *)
Definition addLocationPoints (locations : list Location.t) : State :=
  let st := mkState None [] [] [] None in
  let st := fold_left addLocation locations st in
  (* Fit map to show all locations *)
  match mapBounds st with
  | Some b =>
      if (0 <? length (List.filter
             (λ l, truthy (Location.longitude l) && truthy (Location.latitude l))
             locations))%nat
      then mkState (mapBounds st) (dataSource st) (clusterSource st)
                   (warned st) (Some (atlas.mkCamera b 50 "ease"))
      else st
  | None => st
  end.
End Effect.
End LocationMap.

(** ** A stub world *)

(** Canned answers: a world without state that replies from a fixed table.
    Used to run the programs on concrete inputs. *)
Record Canned (R : Type) := mkCanned {
  canned_user : Result (option User.t);
  canned_many : Query → Result (list R);
  canned_single : Query → Result R;
  canned_maybe : Query → Result (option R);
  canned_now : string;
  canned_geocode : string → Result (option Coords.t);
  canned_validate : AddressFormData.t → Result bool
}.
Arguments mkCanned {R}.
Arguments canned_user {R}.
Arguments canned_many {R}.
Arguments canned_single {R}.
Arguments canned_maybe {R}.
Arguments canned_now {R}.
Arguments canned_geocode {R}.
Arguments canned_validate {R}.

Definition canned_world {R} (c : Canned R) : World R unit :=
  λ e,
    match e return unit → Reply R e * unit with
    | AuthGetUser => λ s, (canned_user c, s)
    | Fetch q Many => λ s, (canned_many c q, s)
    | Fetch q Single => λ s, (canned_single c q, s)
    | Fetch q MaybeSingle => λ s, (canned_maybe c q, s)
    | DateNow => λ s, (canned_now c, s)
    | GeocodeAddress a => λ s, (canned_geocode c a, s)
    | ValidateAddress a => λ s, (canned_validate c a, s)
    | ConsoleError _ _ | PreventDefault | InvalidateQueries _ | OnClose =>
        λ s, (tt, s)
    end.

(** ** The dashboard statistics, as the specification words them *)

Fixpoint count_status (s : string) (circuits : list CircuitStat) : nat :=
  match circuits with
  | [] => 0
  | c :: rest =>
      ((if decide (status c = s) then 1 else 0) + count_status s rest)%nat
  end.

Fixpoint sum_monthlycost (circuits : list CircuitStat) : Z :=
  match circuits with
  | [] => 0
  | c :: rest => default 0 (monthlycost c) + sum_monthlycost rest
  end.


(** ** The predicates of getLocations, as the specification words them *)

(** A filter field counts as provided when it is present and not empty. *)
Definition provided (field : option string) : option string :=
  match field with
  | Some s => if decide (s = "") then None else Some s
  | None => None
  end.

(** One equality predicate on [column] for a provided field, none
    otherwise. *)
Definition equality_on (column : string) (field : option string) : list Filter :=
  match provided field with
  | Some v => [FEq column v]
  | None => []
  end.

(** The pattern-match disjunction: [column.ilike.%search%] for each column,
    joined by commas. *)
Definition ilike_any (columns : list string) (search : string) : string :=
  String.concat "," (map (λ c, c +:+ ".ilike.%" +:+ search +:+ "%") columns).

Definition search_over (columns : list string) (field : option string)
    : list Filter :=
  match provided field with
  | Some s => [FOr (ilike_any columns s)]
  | None => []
  end.

Definition is_equality_on (column : string) (f : Filter) : bool :=
  match f with
  | FEq c _ => String.eqb c column
  | FOr _ => false
  end.

Definition is_disjunction (f : Filter) : bool :=
  match f with
  | FOr _ => true
  | FEq _ _ => false
  end.

Definition location_predicates (fs : option LocationFilters.t) : list Filter :=
  search_over ["name"; "address"; "city"; "state"] (fs ≫= LocationFilters.search)
  ++ equality_on "state" (fs ≫= LocationFilters.state)
  ++ equality_on "city" (fs ≫= LocationFilters.city)
  ++ equality_on "criticality" (fs ≫= LocationFilters.criticality)
  ++ equality_on "company_id" (fs ≫= LocationFilters.company_id).

(** ** Sample inputs *)

Definition no_answers {R} : Canned R :=
  mkCanned (Ok None)
           (λ _, Ok [])
           (λ _, Err (BackendError "no rows"))
           (λ _, Ok None)
           "2024-05-01T12:00:00.000Z"
           (λ _, Ok None)
           (λ _, Ok true).

(** A backend whose statistics query returns three circuits. *)
Definition three_circuits : list CircuitStat :=
  [ {| status := "Active"; monthlycost := Some 100 |};
    {| status := "Inactive"; monthlycost := None |};
    {| status := "Pending"; monthlycost := Some 250 |} ].

Definition circuits_backend : Canned CircuitStat :=
  mkCanned (Ok None) (λ _, Ok three_circuits)
           (λ _, Err (BackendError "no rows")) (λ _, Ok None)
           "2024-05-01T12:00:00.000Z" (λ _, Ok None) (λ _, Ok true).

(** The filters the locations page passes when only a search and a city are
    chosen: the other dropdowns hold the empty string. *)
Definition sample_location_filters : option LocationFilters.t :=
  Some (LocationFilters.mk (Some "sea") (Some "") (Some "Seattle") (Some "") (Some "")).

(** ** The update operations *)

Inductive UpdateOp := UpdateCompany | UpdateLocation | UpdateCircuit.

Definition update_op (u : UpdateOp) : string → Obj → Prog Obj Obj :=
  match u with
  | UpdateCompany => updateCompany
  | UpdateLocation => updateLocation
  | UpdateCircuit => updateCircuit
  end.

Definition update_table (u : UpdateOp) : string :=
  match u with
  | UpdateCompany => "companies"
  | UpdateLocation => "locations"
  | UpdateCircuit => "circuits"
  end.

(** The request an update operation sends when the client's clock reads
    [now]. *)
Definition update_query (u : UpdateOp) (id : string) (fields : Obj)
    (now : string) : Query :=
  qb.from (update_table u)
  |> qb.update (<["updated_at" := JStr now]> fields)
  |> qb.eq "id" id
  |> qb.select_back.

(** The payload of an update request, if the event is one. *)
Definition sent_update {R} (ev : Event R) : option Obj :=
  match ev with
  | Ev (Fetch q _) _ =>
      match verb q with
      | Update values => Some values
      | _ => None
      end
  | Ev _ _ => None
  end.

Definition sent_updates {R} (t : list (Event R)) : list Obj :=
  omap sent_update t.

(** ** Errors and results of the API operations *)

(** The error a backend call reported, if the event is a failed call. *)
Definition backend_error {R} (ev : Event R) : option Error :=
  match ev with
  | Ev e r =>
      match e return Reply R e → option Error with
      | AuthGetUser => λ r, match r with Err error => Some error | Ok _ => None end
      | Fetch _ _ => λ r, match r with Err error => Some error | Ok _ => None end
      | _ => λ _, None
      end r
  end.

(** The data of a reply, as a value an operation can resolve to. *)
Definition data_value {R} (c : Card) : DataOf R c → ApiValue R :=
  match c return DataOf R c → ApiValue R with
  | Many => VRows
  | Single => VRow
  | MaybeSingle => λ d, match d with Some row => VRow row | None => VJs JNull end
  end.

Definition backend_data {R} (ev : Event R) : option (ApiValue R) :=
  match ev with
  | Ev e r =>
      match e return Reply R e → option (ApiValue R) with
      | Fetch _ c => λ r, match r with Ok d => Some (data_value c d) | Err _ => None end
      | _ => λ _, None
      end r
  end.

(** The operation resolved to the data of its last backend call, with
    nothing computed from it in between. *)
Definition returned_unchanged {R} (t : list (Event R)) (v : ApiValue R) : Prop :=
  last t ≫= backend_data = Some v.

(** What an operation does with a backend error [e]. *)
Definition error_law (op : ApiOp)
    : Error → list (Event (row_of op)) → Outcome (ApiValue (row_of op)) → Prop :=
  match op with
  | OpGetEnvironmentVariable key => λ e t o,
      o = Resolved (VJs JNull)
      ∧ last t = Some (Ev (ConsoleError
           ("Error fetching environment variable " +:+ key +:+ ":") e) ())
  | OpGetCurrentUserProfile => λ e t o,
      o = Rejected e
      ∨ o = Rejected (NewError "Failed to fetch user profile")
      ∨ o = Rejected (NewError "Failed to create user profile")
  | _ => λ e t o, o = Rejected e
  end.

(** The statistics computed from the fetched circuits. *)
Definition stats_of (circuits : list CircuitStat) : DashboardStats :=
  {| totalCircuits := length circuits;
     activeCircuits := count_status "Active" circuits;
     inactiveCircuits := count_status "Inactive" circuits;
     totalMonthlyCost := sum_monthlycost circuits |}.

(** How an operation's result relates to what the backend returned. *)
Definition result_law (op : ApiOp)
    : list (Event (row_of op)) → ApiValue (row_of op) → Prop :=
  match op with
  | OpGetDashboardStats fs => λ t v,
      ∃ circuits : list CircuitStat,
        t = [Ev (Fetch (getDashboardStats_query fs) Many) (Ok circuits)]
        ∧ v = VStats (stats_of circuits)
  | OpGetEnvironmentVariable key => λ t v,
      (∃ (q : Query) (data : Obj),
         t = [Ev (Fetch q Single) (Ok data)]
         ∧ v = VJs (js_or (get data "value") JNull))
      ∨ (∃ (q : Query) (e : Error) (msg : string),
           t = [Ev (Fetch q Single) (Err e); Ev (ConsoleError msg e) ()]
           ∧ v = VJs JNull)
  | _ => λ t v, returned_unchanged t v
  end.

(** The two requests of getCurrentUserProfile. *)
Definition profile_select (user : User.t) : Query :=
  qb.from "user_profiles" |> qb.select "*" |> qb.eq "user_id" (User.id user).

Definition profile_insert (user : User.t) : Query :=
  qb.from "user_profiles"
  |> qb.insert [ {[ "user_id" := JStr (User.id user); "role" := JStr "viewer" ]} ]
  |> qb.select_back.

(** A backend on which every call fails. *)
Definition failing_backend {R} : Canned R :=
  mkCanned (Err (BackendError "not signed in"))
           (λ _, Err (BackendError "permission denied"))
           (λ _, Err (BackendError "permission denied"))
           (λ _, Err (BackendError "permission denied"))
           "2024-05-01T12:00:00.000Z"
           (λ _, Err (NewError "geocoder unavailable"))
           (λ _, Err (NewError "validator unavailable")).

(** The rows of an insert request, if the event is one. *)
Definition inserted_rows {R} (ev : Event R) : list Obj :=
  match ev with
  | Ev (Fetch q _) _ =>
      match verb q with
      | Insert rows => rows
      | _ => []
      end
  | Ev _ _ => []
  end.

(** A signed-in user without a profile row; the insert returns the new row
    with the columns the backend fills in. *)
Definition new_user : User.t := User.mk "u-42".

Definition created_profile : Obj :=
  {[ "id" := JStr "p-1"; "user_id" := JStr "u-42"; "role" := JStr "viewer" ]}.

Definition new_user_backend : Canned Obj :=
  mkCanned (Ok (Some new_user)) (λ _, Ok [])
           (λ _, Ok created_profile) (λ _, Ok None)
           "2024-05-01T12:00:00.000Z" (λ _, Ok None) (λ _, Ok true).

(** A location being edited, and a geocoder that finds its address. *)
Definition seattle_office : Location.t :=
  Location.mk "loc-1" "Seattle office" "1 Main St" "Seattle" "WA" "98101" "US"
    "High" "2023-01-01T00:00:00.000Z" "2023-01-01T00:00:00.000Z"
    None None (num 12) (num 3) None "c1" JNull JNull.

Definition seattle_coords : Coords.t :=
  Coords.mk (JNum (Finite (-12233 # 100))) (JNum (Finite (476 # 10))).

Definition geocoding_backend : Canned Obj :=
  mkCanned (Ok None) (λ _, Ok []) (λ _, Ok ∅) (λ _, Ok None)
           "2024-05-01T12:00:00.000Z"
           (λ _, Ok (Some seattle_coords)) (λ _, Ok true).

(** A location whose criticality is none of the select's options. *)
Definition legacy_site : Location.t :=
  Location.mk "loc-7" "Legacy site" "9 Dock Rd" "Tacoma" "WA" "98402" "US"
    "Critical" "2022-03-01T00:00:00.000Z" "2022-03-01T00:00:00.000Z"
    None None (num 0) (num 0) None "c1" JNull JNull.

Definition gray_classes : string := "text-gray-500 bg-gray-50 dark:bg-gray-900/20".

(** ** The map's points, as the specification words them *)

(** A number within [[lo, hi]]: finite, and between the bounds. *)
Definition within (lo hi : Z) (n : JsNumber) : Prop :=
  match n with
  | Finite q => (inject_Z lo <= q ∧ q <= inject_Z hi)%Q
  | _ => False
  end.

Definition withinb (lo hi : Z) (n : JsNumber) : bool :=
  match n with
  | Finite q => Qle_bool (inject_Z lo) q && Qle_bool q (inject_Z hi)
  | _ => false
  end.

(** A position within the longitude and latitude ranges. *)
Definition on_globe (p : atlas.Position) : Prop :=
  within (-180) 180 p.1 ∧ within (-90) 90 p.2.

Definition box_on_globe (b : atlas.BoundingBox) : Prop :=
  on_globe (atlas.getSouthWest b) ∧ on_globe (atlas.getNorthEast b).

Section MapSpec.
Variable parseFloat : JsValue → JsNumber.
Variable selectedLocationId : option string.

(** Both coordinates are present and parse to numbers within range. *)
Definition plottable (l : Location.t) : bool :=
truthy (Location.longitude l) && truthy (Location.latitude l)
&& withinb (-180) 180 (parseFloat (Location.longitude l))
&& withinb (-90) 90 (parseFloat (Location.latitude l)).

(** The point the map shows for a location. *)
Definition feature_of (l : Location.t) : atlas.Feature :=
let coordinates :=
  (parseFloat (Location.longitude l), parseFloat (Location.latitude l)) in
let selected := LocationMap.is_selected selectedLocationId l in
atlas.mkFeature coordinates (Location.id l) (Location.name l)
  (Location.criticality l, selected) coordinates selected
  (Location.criticality l).

(** Coordinates present, but failing the validation. *)
Definition rejected (l : Location.t) : bool :=
truthy (Location.longitude l) && truthy (Location.latitude l)
&& negb (withinb (-180) 180 (parseFloat (Location.longitude l))
         && withinb (-90) 90 (parseFloat (Location.latitude l))).
End MapSpec.

(** ** Sample map inputs *)

(** A [parseFloat] that agrees with the runtime's on the values used in the
    examples below: numbers parse to themselves, the listed decimal strings
    to their values, other strings here stand for unparsable text. *)
Definition parseFloat_sample (v : JsValue) : JsNumber :=
  match v with
  | JNum n => n
  | JStr s =>
      if String.eqb s "-122.33" then Finite (-12233 # 100)
      else if String.eqb s "47.6" then Finite (476 # 10)
      else if String.eqb s "200" then num 200
      else if String.eqb s "10" then num 10
      else NaN
  | _ => NaN
  end.

Definition with_coordinates (l : Location.t) (lon lat : JsValue) : Location.t :=
  let 'Location.mk i n a c s z co cr ca ua sd cp au ns ha ci _ _ := l in
  Location.mk i n a c s z co cr ca ua sd cp au ns ha ci lon lat.

(** Seattle, with its coordinates as strings. *)
Definition seattle_on_map : Location.t :=
  with_coordinates seattle_office (JStr "-122.33") (JStr "47.6").

(** A site whose longitude is out of range. *)
Definition far_site : Location.t :=
  with_coordinates legacy_site (JStr "200") (JStr "10").

(** A site whose coordinates were never geocoded. *)
Definition unplaced_site : Location.t := legacy_site.

(** The queries of the events that reached the backend. *)
Definition fetched {R} (ev : Event R) : option Query :=
  match ev with
  | Ev (Fetch q _) _ => Some q
  | Ev _ _ => None
  end.

(** ** More of the API module, as a caller sees it *)

Definition company_predicates (fs : option CompanyFilters.t) : list Filter :=
  search_over ["name"; "address_city"; "address_state"] (fs ≫= CompanyFilters.search)
  ++ equality_on "address_state" (fs ≫= CompanyFilters.state)
  ++ equality_on "address_city" (fs ≫= CompanyFilters.city).

Definition circuit_predicates (fs : option CircuitFilters.t) : list Filter :=
  search_over ["carrier"; "type"; "bandwidth"] (fs ≫= CircuitFilters.search)
  ++ equality_on "carrier" (fs ≫= CircuitFilters.carrier)
  ++ equality_on "type" (fs ≫= CircuitFilters.type)
  ++ equality_on "status" (fs ≫= CircuitFilters.status)
  ++ equality_on "location_id" (fs ≫= CircuitFilters.location_id).

Definition dashboard_predicates (fs : option DashboardFilters.t) : list Filter :=
  equality_on "location_id" (fs ≫= DashboardFilters.location_id)
  ++ equality_on "location.company_id" (fs ≫= DashboardFilters.company_id).

(** The queries a run sent to the backend, in order. *)
Definition requests {R} (t : list (Event R)) : list Query := omap fetched t.

(** The three create operations and their tables. *)
Inductive CreateOp := CreateCompany | CreateLocation | CreateCircuit.

Definition create_op (c : CreateOp) : Obj → Prog Obj Obj :=
  match c with
  | CreateCompany => createCompany
  | CreateLocation => createLocation
  | CreateCircuit => createCircuit
  end.

Definition create_table (c : CreateOp) : string :=
  match c with
  | CreateCompany => "companies"
  | CreateLocation => "locations"
  | CreateCircuit => "circuits"
  end.

(** The one row an operation addresses by key, when it addresses one. *)
Definition row_key (op : ApiOp) : option (string * string) :=
  match op with
  | OpGetCompany id | OpGetLocation id | OpGetCircuit id
  | OpUpdateCompany id _ | OpUpdateLocation id _ | OpUpdateCircuit id _ =>
      Some ("id", id)
  | OpUpdateUserRole userId _ => Some ("user_id", userId)
  | _ => None
  end.

(** The operations whose name says they only read. *)
Definition reads_only (op : ApiOp) : bool :=
  match op with
  | OpGetCompanies _ | OpGetCompany _ | OpGetLocations _ | OpGetLocation _
  | OpGetCircuits _ | OpGetCircuit _ | OpGetDashboardStats _
  | OpGetUserProfiles | OpGetEnvironmentVariable _ => true
  | _ => false
  end.

Definition writes (q : Query) : bool :=
  match verb q with
  | Insert _ | Update _ => true
  | Select _ | Rpc _ => false
  end.

(** The three circuits in the opposite order. *)
Definition circuits_backend_reversed : Canned CircuitStat :=
  mkCanned (Ok None) (λ _, Ok (rev three_circuits))
           (λ _, Err (BackendError "no rows")) (λ _, Ok None)
           "2024-05-01T12:00:00.000Z" (λ _, Ok None) (λ _, Ok true).

(** A signed-in user whose profile row exists. *)
Definition existing_profile : Obj :=
  {[ "id" := JStr "p-9"; "user_id" := JStr "u-42"; "role" := JStr "admin" ]}.

Definition known_user_backend : Canned Obj :=
  mkCanned (Ok (Some new_user)) (λ _, Ok [])
           (λ _, Ok existing_profile) (λ _, Ok (Some existing_profile))
           "2024-05-01T12:00:00.000Z" (λ _, Ok None) (λ _, Ok true).

(** The request updateUserProfile sends for a signed-in user. *)
Definition own_profile_update (user : User.t) (data : Obj) (now : string) : Query :=
  qb.from "user_profiles"
  |> qb.update (<["updated_at" := JStr now]> data)
  |> qb.eq "user_id" (User.id user)
  |> qb.select_back.

(** What a profile operation rejects with when nobody is signed in. *)
Definition no_user_error (u : Result (option User.t)) : Error :=
  match u with
  | Err authError => authError
  | Ok _ => NewError "No authenticated user"
  end.

(** * Proofs *)

(** ** Dashboard statistics *)

Lemma filter_status_length s circuits :
  length (List.filter (λ c, String.eqb (status c) s) circuits)
  = count_status s circuits.
Proof.
  induction circuits as [|c rest IH]; simpl; [done|].
  destruct (String.eqb_spec (status c) s) as [E|E];
    destruct (decide (status c = s)); try contradiction; simpl; lia.
Qed.

Lemma num_or_zero n : num_or n 0 = default 0 n.
Proof.
  destruct n as [v|]; simpl; [|done].
  destruct (Z.eqb_spec v 0); congruence.
Qed.

Lemma reduce_monthlycost circuits acc :
  fold_left (λ sum c, sum + num_or (monthlycost c) 0) circuits acc
  = acc + sum_monthlycost circuits.
Proof.
  revert acc. induction circuits as [|c rest IH]; intros acc; simpl; [lia|].
  rewrite IH, num_or_zero. lia.
Qed.

Lemma count_status_le circuits :
  (count_status "Active" circuits + count_status "Inactive" circuits
   ≤ length circuits)%nat.
Proof.
  induction circuits as [|c rest IH]; simpl; [lia|].
  destruct (decide (status c = "Active")) as [E|E];
    destruct (decide (status c = "Inactive")) as [E'|E']; try lia.
  rewrite E in E'. discriminate.
Qed.

Lemma count_status_total circuits :
  (count_status "Active" circuits + count_status "Inactive" circuits
   = length circuits)%nat
  ↔ Forall (λ c, status c = "Active" ∨ status c = "Inactive") circuits.
Proof.
  induction circuits as [|c rest IH]; simpl.
  - split; [constructor | done].
  - pose proof (count_status_le rest) as Hle.
    rewrite Forall_cons, <- IH.
    destruct (decide (status c = "Active")) as [E|E];
      destruct (decide (status c = "Inactive")) as [E'|E'].
    + rewrite E in E'. discriminate.
    + split; [intros; split; [by left|lia] | intros [_ ?]; lia].
    + split; [intros; split; [by right|lia] | intros [_ ?]; lia].
    + split; [lia | intros [[?|?] _]; contradiction].
Qed.


(** ** The predicates of getLocations *)

Lemma append_assoc (a b c : string) : (a +:+ b) +:+ c = a +:+ (b +:+ c).
Proof.
  induction a as [|ch a IH]; [done|].
  change (String ch ((a +:+ b) +:+ c) = String ch (a +:+ (b +:+ c))).
  by rewrite IH.
Qed.

Lemma if_truthy_eq column field q :
  filters (if_truthy field (qb.eq column) q) = filters q ++ equality_on column field.
Proof.
  unfold if_truthy, equality_on. destruct field as [s|]; simpl.
  - destruct (String.eqb_spec s "") as [E|E]; destruct (decide (s = ""));
      try contradiction; simpl; by rewrite ?app_nil_r.
  - by rewrite app_nil_r.
Qed.

Lemma if_truthy_or columns field q (f : string → string) :
  (∀ s, f s = ilike_any columns s) →
  filters (if_truthy field (λ s, qb.or (f s)) q) = filters q ++ search_over columns field.
Proof.
  intros Hf. unfold if_truthy, search_over. destruct field as [s|]; simpl.
  - destruct (String.eqb_spec s "") as [E|E]; destruct (decide (s = ""));
      try contradiction; simpl; rewrite ?app_nil_r, ?Hf; done.
  - by rewrite app_nil_r.
Qed.

Lemma filters_order c a q : filters (qb.order c a q) = filters q.
Proof. done. Qed.
Lemma filters_throwOnError q : filters (qb.throwOnError q) = filters q.
Proof. done. Qed.

Lemma getLocations_query_filters fs :
  filters (getLocations_query fs) = location_predicates fs.
Proof.
  unfold getLocations_query, location_predicates.
  rewrite filters_throwOnError, filters_order.
  rewrite !if_truthy_eq.
  rewrite (if_truthy_or ["name"; "address"; "city"; "state"]).
  - simpl. by rewrite <- !app_assoc.
  - intros s. unfold ilike_any. simpl.
    rewrite !append_assoc. reflexivity.
Qed.

(** C5: for every filter object passed to getLocations, the request that is
    issued carries, in this order, one ilike disjunction over name, address,
    city and state when a search string is provided, and one equality
    predicate on state, city, criticality and company_id for each of these
    that is provided; an absent or empty field contributes no predicate. *)
Theorem getLocations_predicates {S} (w : World Obj S) (s : S)
    (fs : option LocationFilters.t) :
  let preds := filters (getLocations_query fs) in
  (∃ r, trace w (getLocations fs) s = [Ev (Fetch (getLocations_query fs) Many) r])
  ∧ preds = location_predicates fs
  ∧ List.filter is_disjunction preds
    = search_over ["name"; "address"; "city"; "state"] (fs ≫= LocationFilters.search)
  ∧ List.filter (is_equality_on "state") preds
    = equality_on "state" (fs ≫= LocationFilters.state)
  ∧ List.filter (is_equality_on "city") preds
    = equality_on "city" (fs ≫= LocationFilters.city)
  ∧ List.filter (is_equality_on "criticality") preds
    = equality_on "criticality" (fs ≫= LocationFilters.criticality)
  ∧ List.filter (is_equality_on "company_id") preds
    = equality_on "company_id" (fs ≫= LocationFilters.company_id)
  ∧ (∀ f, f ∈ preds → is_disjunction f = true
          ∨ ∃ c, c ∈ ["state"; "city"; "criticality"; "company_id"]
                 ∧ is_equality_on c f = true).
Proof.
  intros preds. subst preds. rewrite getLocations_query_filters.
  split.
  { unfold trace, getLocations. cbn.
    destruct (w _ s) as [r s1]. exists r.
    destruct r as [d|e]; cbn; [done|].
    by destruct (throws (getLocations_query fs)). }
  split; [done|].
  unfold location_predicates, search_over, equality_on.
  destruct (provided (fs ≫= LocationFilters.search));
    destruct (provided (fs ≫= LocationFilters.state));
    destruct (provided (fs ≫= LocationFilters.city));
    destruct (provided (fs ≫= LocationFilters.criticality));
    destruct (provided (fs ≫= LocationFilters.company_id));
    cbn; (repeat split; try reflexivity);
    intros f Hf; repeat (apply elem_of_cons in Hf as [->|Hf]);
    try (by left); try (by apply elem_of_nil in Hf);
    right;
    match goal with
    | |- ∃ c, _ ∧ is_equality_on c (FEq ?col _) = true => exists col
    end; (split; [set_solver | reflexivity]).
Qed.

Example getLocations_sample_filters :
  filters (getLocations_query sample_location_filters)
  = [ FOr "name.ilike.%sea%,address.ilike.%sea%,city.ilike.%sea%,state.ilike.%sea%";
      FEq "city" "Seattle" ].
Proof. reflexivity. Qed.

Example getLocations_no_filters :
  filters (getLocations_query None) = [].
Proof. reflexivity. Qed.

Example getDashboardStats_three_circuits :
  outcome (canned_world circuits_backend) (getDashboardStats None) ()
  = Resolved {| totalCircuits := 3; activeCircuits := 1;
                inactiveCircuits := 1; totalMonthlyCost := 350 |}.
Proof. reflexivity. Qed.


(** ** Running programs: general facts *)

Lemma exec_bind {R S A B} (w : World R S) (p : Prog R A) (f : A → Prog R B) s :
  exec w (bind p f) s =
  match exec w p s with
  | (Resolved a, t, s1) =>
      let '(o, t', s2) := exec w (f a) s1 in (o, t ++ t', s2)
  | (Rejected e, t, s1) => (Rejected e, t, s1)
  end.
Proof.
  revert s. induction p as [a|e|e k IH]; intros s; simpl.
  - by destruct (exec w (f a) s) as [[o t] s2].
  - done.
  - destruct (w e s) as [r s1]. rewrite IH.
    destruct (exec w (k r) s1) as [[[a|e'] t] s2]; [|done].
    by destruct (exec w (f a) s2) as [[o t'] s3].
Qed.

Lemma exec_fmap {R S A B} (w : World R S) (g : A → B) (p : Prog R A) s :
  exec w (g <$> p) s =
  match exec w p s with
  | (Resolved a, t, s1) => (Resolved (g a), t, s1)
  | (Rejected e, t, s1) => (Rejected e, t, s1)
  end.
Proof.
  unfold fmap, prog_fmap. rewrite exec_bind.
  destruct (exec w p s) as [[[a|e] t] s1]; simpl; [|done].
  by rewrite app_nil_r.
Qed.

(** [const { data, error } = await query; if (error) throw error;
    return data;] rejects with the backend's error and resolves to the
    backend's data, whether or not the query was built with
    [throwOnError]. *)
Lemma exec_await_return {R S} (w : World R S) (q : Query) (c : Card) s :
  exec w (r ← await q c; throw_or_return r) s =
  let '(r, s1) := w (Fetch q c) s in
  (match r with Ok d => Resolved d | Err e => Rejected e end,
   [Ev (Fetch q c) r], s1).
Proof.
  unfold mbind, prog_bind, await. simpl.
  destruct (w (Fetch q c) s) as [r s1]. simpl in r.
  destruct r as [d|e]; simpl; [done|].
  by destruct (throws q).
Qed.

(** The three update operations have one shape. *)
Lemma exec_update {S} (w : World Obj S) (table id : string) (fields : Obj) s :
  exec w (now ← perform DateNow;
          r ← await (qb.from table
                     |> qb.update (<["updated_at" := JStr now]> fields)
                     |> qb.eq "id" id
                     |> qb.select_back) Single;
          throw_or_return r) s =
  let '(now, s1) := w DateNow s in
  let q := qb.from table
           |> qb.update (<["updated_at" := JStr now]> fields)
           |> qb.eq "id" id |> qb.select_back in
  let '(r, s2) := w (Fetch q Single) s1 in
  (match r with Ok d => Resolved d | Err e => Rejected e end,
   [Ev DateNow now; Ev (Fetch q Single) r], s2).
Proof.
  simpl. destruct (w DateNow s) as [now s1]. simpl.
  destruct (w _ s1) as [r s2]. simpl in r. by destruct r.
Qed.

(** ** Timestamps of the update operations *)

Lemma exec_update_op {S} (u : UpdateOp) (id : string) (fields : Obj)
    (w : World Obj S) s :
  exec w (update_op u id fields) s =
  let '(now, s1) := w DateNow s in
  let '(r, s2) := w (Fetch (update_query u id fields now) Single) s1 in
  (match r with Ok d => Resolved d | Err e => Rejected e end,
   [Ev DateNow now; Ev (Fetch (update_query u id fields now) Single) r], s2).
Proof. destruct u; apply exec_update. Qed.

(** C1, as the code has it: each of updateCompany, updateLocation and
    updateCircuit reads the client's clock and sends one update request whose
    payload is the caller's fields with updated_at set to that reading; every
    other property, created_at included, is sent as the caller gave it. *)
Theorem update_stamps_client_clock {S} (u : UpdateOp) (id : string)
    (fields : Obj) (w : World Obj S) (s : S) :
  let now : string := (w DateNow s).1 in
  let t := trace w (update_op u id fields) s in
  (∃ r, t = [Ev DateNow now; Ev (Fetch (update_query u id fields now) Single) r])
  ∧ sent_updates t = [<["updated_at" := JStr now]> fields]
  ∧ ∀ payload : Obj, payload ∈ sent_updates t →
      payload !! "updated_at" = Some (JStr now)
      ∧ payload !! "created_at" = fields !! "created_at"
      ∧ ∀ k, k ≠ "updated_at" → payload !! k = fields !! k.
Proof.
  intros now t. subst now t. unfold trace. rewrite exec_update_op.
  destruct (w DateNow s) as [now s1]. simpl.
  destruct (w _ s1) as [r s2]. simpl.
  split; [by exists r|]. split; [done|].
  intros payload Hp. apply list_elem_of_singleton in Hp as ->.
  split; [apply lookup_insert_eq|].
  split; [by apply lookup_insert_ne|].
  intros k Hk. by apply lookup_insert_ne.
Qed.

(** C1, as stated, fails: updateCompany called with a name only sends an
    updated_at that the caller did not give, read from the client's clock. *)
Lemma update_timestamp_not_server_assigned :
  ¬ (∀ (u : UpdateOp) (id : string) (fields : Obj) (w : World Obj unit)
       (payload : Obj),
       payload ∈ sent_updates (trace w (update_op u id fields) ()) →
       payload !! "updated_at" = fields !! "updated_at").
Proof.
  intros H.
  specialize (H UpdateCompany "c1" {[ "name" := JStr "Acme" ]}
                (canned_world no_answers)
                (<["updated_at" := JStr "2024-05-01T12:00:00.000Z"]>
                   {[ "name" := JStr "Acme" ]})).
  rewrite lookup_insert_eq, lookup_singleton_ne in H by done.
  enough (Some (JStr "2024-05-01T12:00:00.000Z") = None) by discriminate.
  apply H. unfold trace. rewrite exec_update_op. simpl. set_solver.
Qed.

Example updateCompany_sample :
  sent_updates (trace (canned_world no_answers)
                      (updateCompany "c1" {[ "name" := JStr "Acme" ]}) ())
  = [ <["updated_at" := JStr "2024-05-01T12:00:00.000Z"]>
        {[ "name" := JStr "Acme" ]} ].
Proof. reflexivity. Qed.

(** ** Backend errors *)

Lemma exec_getDashboardStats {S} (w : World CircuitStat S) fs s :
  exec w (getDashboardStats fs) s =
  let '(r, s1) := w (Fetch (getDashboardStats_query fs) Many) s in
  (match r with
   | Ok circuits => Resolved (stats_of circuits)
   | Err e => Rejected e
   end,
   [Ev (Fetch (getDashboardStats_query fs) Many) r], s1).
Proof.
  unfold getDashboardStats, mbind, prog_bind, await. simpl.
  destruct (w _ s) as [r s1]. simpl in r. destruct r as [circuits|e]; simpl.
  - unfold stats_of.
    by rewrite !filter_status_length, reduce_monthlycost.
  - by destruct (throws (getDashboardStats_query fs)).
Qed.

Lemma exec_getEnvironmentVariable {S} (w : World Obj S) key s :
  let q := qb.rpc "get_environment_variable" {[ "var_key" := JStr key ]}
           |> qb.throwOnError in
  exec w (getEnvironmentVariable key) s =
  let '(r, s1) := w (Fetch q Single) s in
  match r with
  | Ok data =>
      (Resolved (js_or (get data "value") JNull), [Ev (Fetch q Single) r], s1)
  | Err e =>
      let msg := "Error fetching environment variable " +:+ key +:+ ":" in
      let '(u, s2) := w (ConsoleError msg e) s1 in
      (Resolved JNull, [Ev (Fetch q Single) r; Ev (ConsoleError msg e) u], s2)
  end.
Proof.
  unfold getEnvironmentVariable. simpl.
  destruct (w _ s) as [r s1]. simpl in r. destruct r as [data|e]; simpl; [done|].
  by destruct (w _ s1) as [u s2].
Qed.

Lemma exec_updateUserProfile {S} (w : World Obj S) (data : Obj) s :
  exec w (updateUserProfile data) s =
  let '(u, s1) := w AuthGetUser s in
  match u with
  | Err authError => (Rejected authError, [Ev AuthGetUser u], s1)
  | Ok None => (Rejected (NewError "No authenticated user"), [Ev AuthGetUser u], s1)
  | Ok (Some user) =>
      let '(now, s2) := w DateNow s1 in
      let q := qb.from "user_profiles"
               |> qb.update (<["updated_at" := JStr now]> data)
               |> qb.eq "user_id" (User.id user) |> qb.select_back in
      let '(r, s3) := w (Fetch q Single) s2 in
      (match r with Ok d => Resolved d | Err e => Rejected e end,
       [Ev AuthGetUser u; Ev DateNow now; Ev (Fetch q Single) r], s3)
  end.
Proof.
  unfold updateUserProfile. simpl.
  destruct (w AuthGetUser s) as [u s1]. simpl in u.
  destruct u as [[user|]|e]; simpl; try done.
  destruct (w DateNow s1) as [now s2]. simpl.
  destruct (w _ s2) as [r s3]. simpl in r. by destruct r.
Qed.

Lemma exec_getCurrentUserProfile {S} (w : World Obj S) s :
  exec w getCurrentUserProfile s =
  let '(u, s1) := w AuthGetUser s in
  match u with
  | Err authError => (Rejected authError, [Ev AuthGetUser u], s1)
  | Ok None => (Rejected (NewError "No authenticated user"), [Ev AuthGetUser u], s1)
  | Ok (Some user) =>
      let '(r, s2) := w (Fetch (profile_select user) MaybeSingle) s1 in
      match r with
      | Err error =>
          let '(l, s3) := w (ConsoleError "Error fetching user profile:" error) s2 in
          (Rejected (NewError "Failed to fetch user profile"),
           [Ev AuthGetUser u; Ev (Fetch (profile_select user) MaybeSingle) r;
            Ev (ConsoleError "Error fetching user profile:" error) l], s3)
      | Ok (Some data) =>
          (Resolved data,
           [Ev AuthGetUser u; Ev (Fetch (profile_select user) MaybeSingle) r], s2)
      | Ok None =>
          let '(r', s3) := w (Fetch (profile_insert user) Single) s2 in
          match r' with
          | Err createError =>
              let '(l, s4) :=
                w (ConsoleError "Error creating user profile:" createError) s3 in
              (Rejected (NewError "Failed to create user profile"),
               [Ev AuthGetUser u; Ev (Fetch (profile_select user) MaybeSingle) r;
                Ev (Fetch (profile_insert user) Single) r';
                Ev (ConsoleError "Error creating user profile:" createError) l], s4)
          | Ok newProfile =>
              (Resolved newProfile,
               [Ev AuthGetUser u; Ev (Fetch (profile_select user) MaybeSingle) r;
                Ev (Fetch (profile_insert user) Single) r'], s3)
          end
      end
  end.
Proof.
  unfold getCurrentUserProfile. simpl.
  destruct (w AuthGetUser s) as [u s1]. simpl in u.
  destruct u as [[user|]|e]; simpl; try done.
  fold (profile_select user). 
  destruct (w (Fetch (profile_select user) MaybeSingle) s1) as [r s2]. simpl in r.
  destruct r as [[data|]|error]; simpl; try done.
  - fold (profile_insert user).
    destruct (w (Fetch (profile_insert user) Single) s2) as [r' s3]. simpl in r'.
    destruct r' as [newProfile|createError]; simpl; [done|].
    by destruct (w _ s3) as [l s4].
  - by destruct (w _ s2) as [l s3].
Qed.

Ltac run_op w :=
  unfold getCompanies, getCompany, createCompany, getLocations, getLocation,
    createLocation, getCircuits, getCircuit, createCircuit, getUserProfiles,
    updateUserRole;
  rewrite exec_fmap;
  first [ rewrite (exec_await_return w _ Many)
        | rewrite (exec_await_return w _ Single)
        | rewrite (exec_update_op UpdateCompany)
        | rewrite (exec_update_op UpdateLocation)
        | rewrite (exec_update_op UpdateCircuit)
        | rewrite exec_updateUserProfile
        | rewrite exec_getDashboardStats
        | rewrite exec_getCurrentUserProfile
        | rewrite exec_getEnvironmentVariable ];
  cbv zeta;
  repeat match goal with
  | |- context [w ?e ?s] =>
      let r := fresh "r" in let s' := fresh "s" in
      destruct (w e s) as [r s']; simpl in r;
      lazymatch type of r with
      | Result _ => destruct r as [?|?]
      | unit => destruct r
      | _ => idtac
      end;
      repeat match goal with d : option _ |- _ => destruct d end
  end.




Example getEnvironmentVariable_on_error :
  exec (canned_world failing_backend) (getEnvironmentVariable "AZURE_MAPS_KEY") ()
  = (Resolved JNull,
     [ Ev (Fetch (qb.rpc "get_environment_variable"
                         {[ "var_key" := JStr "AZURE_MAPS_KEY" ]}
                  |> qb.throwOnError) Single)
          (Err (BackendError "permission denied"));
       Ev (ConsoleError "Error fetching environment variable AZURE_MAPS_KEY:"
                        (BackendError "permission denied")) () ],
     ()).
Proof. reflexivity. Qed.

(** ** What the operations resolve to *)

(** C3, as the code has it: every API operation other than getDashboardStats
    and getEnvironmentVariable resolves to the data of its last backend call,
    unchanged; getEnvironmentVariable resolves to the value property of the
    fetched row, or to null when that is falsy or the call failed;
    getDashboardStats fetches the circuit rows and
    counts and sums them in-process. *)
Theorem results_are_backend_data_or_computed {S} (op : ApiOp)
    (w : World (row_of op) S) (s : S) (v : ApiValue (row_of op)) :
  outcome w (run op) s = Resolved v →
  result_law op (trace w (run op) s) v.
Proof.
  unfold trace, outcome.
  destruct op; cbn [run row_of result_law returned_unchanged] in *.
  all: run_op w.
  all: cbn [fst snd].
  all: intros Hv; try discriminate Hv; injection Hv as <-.
  all: try reflexivity.
  all: eauto 8.
Qed.

Lemma results_are_backend_data_or_computed_witness :
  result_law (OpGetDashboardStats None)
    (trace (canned_world circuits_backend) (run (OpGetDashboardStats None)) ())
    (VStats {| totalCircuits := 3; activeCircuits := 1;
               inactiveCircuits := 1; totalMonthlyCost := 350 |}).
Proof.
  apply (results_are_backend_data_or_computed (OpGetDashboardStats None)
           (canned_world circuits_backend) ()).
  reflexivity.
Defined.

(** C3, as stated, fails: on a backend that returns three circuit rows,
    getDashboardStats resolves to counts and a sum that the backend never
    sent; they are computed from the rows in-process. *)
Lemma getDashboardStats_aggregates_locally :
  ¬ (∀ (op : ApiOp) (w : World (row_of op) unit) (v : ApiValue (row_of op)),
       outcome w (run op) () = Resolved v →
       returned_unchanged (trace w (run op) ()) v).
Proof.
  intros H.
  specialize (H (OpGetDashboardStats None) (canned_world circuits_backend)
                (VStats {| totalCircuits := 3; activeCircuits := 1;
                           inactiveCircuits := 1; totalMonthlyCost := 350 |})
                eq_refl).
  discriminate H.
Qed.

(** ** The current user's profile *)

(** C8: when getCurrentUserProfile finds no profile row for the signed-in
    user, its next request inserts the row with that user's id and the role
    "viewer", and it resolves to the row that insert returns; every
    successful call resolves to a profile row, either the one found or the
    one created; and every row the operation ever inserts has the role
    "viewer". *)
Theorem getCurrentUserProfile_creates_viewer_profile {S} (w : World Obj S)
    (s : S) :
  let t := trace w getCurrentUserProfile s in
  let o := outcome w getCurrentUserProfile s in
  (∀ user s1 s2,
      w AuthGetUser s = (Ok (Some user), s1) →
      w (Fetch (profile_select user) MaybeSingle) s1 = (Ok None, s2) →
      let r' := (w (Fetch (profile_insert user) Single) s2).1 in
      verb (profile_insert user)
        = Insert [ {[ "user_id" := JStr (User.id user);
                      "role" := JStr "viewer" ]} ]
      ∧ (∃ rest,
           t = [ Ev AuthGetUser (Ok (Some user));
                 Ev (Fetch (profile_select user) MaybeSingle) (Ok None);
                 Ev (Fetch (profile_insert user) Single) r' ] ++ rest)
      ∧ ∀ newProfile : Obj, r' = Ok newProfile →
          o = Resolved newProfile
          ∧ t = [ Ev AuthGetUser (Ok (Some user));
                  Ev (Fetch (profile_select user) MaybeSingle) (Ok None);
                  Ev (Fetch (profile_insert user) Single) (Ok newProfile) ])
  ∧ (∀ profile : Obj, o = Resolved profile →
      ∃ user,
        t = [ Ev AuthGetUser (Ok (Some user));
              Ev (Fetch (profile_select user) MaybeSingle) (Ok (Some profile)) ]
        ∨ t = [ Ev AuthGetUser (Ok (Some user));
                Ev (Fetch (profile_select user) MaybeSingle) (Ok None);
                Ev (Fetch (profile_insert user) Single) (Ok profile) ])
  ∧ (∀ ev row, ev ∈ t → row ∈ inserted_rows ev →
      row !! "role" = Some (JStr "viewer")).
Proof.
  intros t o. subst t o. unfold trace, outcome.
  rewrite exec_getCurrentUserProfile.
  split; [|split].
  - intros user s1 s2 Hu Hsel. rewrite Hu, Hsel.
    destruct (w (Fetch (profile_insert user) Single) s2) as [r' s3].
    simpl in r'. cbn [fst]. split; [done|].
    destruct r' as [newProfile|createError].
    + cbn. split; [by exists []|].
      intros ? [= <-]. done.
    + destruct (w _ s3) as [l s4]. cbn. split; [by eexists|].
      intros ? [=].
  - intros profile.
    destruct (w AuthGetUser s) as [u s1]. simpl in u.
    destruct u as [[user|]|e]; try (cbn; discriminate).
    destruct (w (Fetch (profile_select user) MaybeSingle) s1) as [r s2].
    simpl in r. destruct r as [[data|]|error].
    + cbn. intros [= <-]. exists user. by left.
    + destruct (w (Fetch (profile_insert user) Single) s2) as [r' s3].
      simpl in r'. destruct r' as [newProfile|createError].
      * cbn. intros [= <-]. exists user. by right.
      * destruct (w _ s3) as [l s4]. cbn. discriminate.
    + destruct (w _ s2) as [l s3]. cbn. discriminate.
  - intros ev row.
    destruct (w AuthGetUser s) as [u s1]. simpl in u.
    destruct u as [[user|]|e];
      [| cbn; intros Hin; apply list_elem_of_singleton in Hin as ->;
         cbn; intros []%elem_of_nil ..].
    destruct (w (Fetch (profile_select user) MaybeSingle) s1) as [r s2].
    simpl in r. destruct r as [[data|]|error].
    2: destruct (w (Fetch (profile_insert user) Single) s2) as [r' s3];
       simpl in r'; destruct r' as [newProfile|createError].
    3: destruct (w _ s3) as [l s4].
    4: destruct (w _ s2) as [l s3].
    all: cbn; intros Hin; repeat (apply elem_of_cons in Hin as [->|Hin]);
      try (by apply elem_of_nil in Hin);
      cbn; intros Hrow; try (by apply elem_of_nil in Hrow);
      apply list_elem_of_singleton in Hrow as ->;
      by rewrite lookup_insert_ne, lookup_singleton_eq.
Qed.

Lemma getCurrentUserProfile_creates_viewer_profile_witness :
  outcome (canned_world new_user_backend) getCurrentUserProfile ()
  = Resolved created_profile
  ∧ trace (canned_world new_user_backend) getCurrentUserProfile ()
    = [ Ev AuthGetUser (Ok (Some new_user));
        Ev (Fetch (profile_select new_user) MaybeSingle) (Ok None);
        Ev (Fetch (profile_insert new_user) Single) (Ok created_profile) ].
Proof.
  apply (proj2 (proj2 (proj1 (getCurrentUserProfile_creates_viewer_profile
                                (canned_world new_user_backend) ())
                             new_user () () eq_refl eq_refl))
               created_profile eq_refl).
Defined.

(** ** Submitting the location edit form *)

Lemma exec_handleSubmit {S} (w : World Obj S) (location : Location.t)
    (formData : FormData.t) s :
  exec w (handleSubmit location formData) s =
  let '(u, s1) := w PreventDefault s in
  let '(g, s2) := w (GeocodeAddress (fullAddress formData)) s1 in
  match g with
  | Err e =>
      (Rejected e,
       [Ev PreventDefault u; Ev (GeocodeAddress (fullAddress formData)) g], s2)
  | Ok coords =>
      let '(now, s3) := w DateNow s2 in
      let q := update_query UpdateLocation (Location.id location)
                 (FormData.to_obj formData) now in
      let '(r, s4) := w (Fetch q Single) s3 in
      match r with
      | Err e =>
          (Resolved (),
           [Ev PreventDefault u; Ev (GeocodeAddress (fullAddress formData)) g;
            Ev DateNow now; Ev (Fetch q Single) r], s4)
      | Ok d =>
          let '(u1, s5) := w (InvalidateQueries "locations") s4 in
          let '(u2, s6) := w OnClose s5 in
          (Resolved (),
           [Ev PreventDefault u; Ev (GeocodeAddress (fullAddress formData)) g;
            Ev DateNow now; Ev (Fetch q Single) r;
            Ev (InvalidateQueries "locations") u1; Ev OnClose u2], s6)
      end
  end.
Proof.
  unfold handleSubmit, mutate, mutationFn, onSuccess, updateLocation. simpl.
  destruct (w PreventDefault s) as [u s1]. simpl.
  destruct (w _ s1) as [g s2]. simpl in g. destruct g as [coords|e]; simpl; [|done].
  destruct (w DateNow s2) as [now s3]. simpl.
  fold (update_query UpdateLocation (Location.id location)
          (FormData.to_obj formData) now).
  destruct (w (Fetch _ Single) s3) as [r s4]. simpl in r.
  destruct r as [d|e]; simpl; [|done].
  destruct (w _ s4) as [u1 s5]. simpl.
  destruct (w OnClose s5) as [u2 s6]. by destruct u2.
Qed.

Lemma to_obj_no_coordinates (formData : FormData.t) :
  FormData.to_obj formData !! "longitude" = None
  ∧ FormData.to_obj formData !! "latitude" = None.
Proof. unfold FormData.to_obj. split; by simplify_map_eq. Qed.

(** Whatever the geocoder returns, the update request that a submit sends
    carries neither coordinate: the variables handed to [mutate] hold them,
    the mutation function never reads the variables. *)
Lemma handleSubmit_update_has_no_coordinates {S} (w : World Obj S)
    (location : Location.t) (formData : FormData.t) (s : S) (payload : Obj) :
  payload ∈ sent_updates (trace w (handleSubmit location formData) s) →
  payload !! "longitude" = None ∧ payload !! "latitude" = None.
Proof.
  unfold trace. rewrite exec_handleSubmit.
  destruct (w PreventDefault s) as [u s1].
  destruct (w _ s1) as [g s2]. simpl in g. destruct g as [coords|e].
  2: { cbn. by intros ?%elem_of_nil. }
  destruct (w DateNow s2) as [now s3]. cbv zeta.
  destruct (w _ s3) as [r s4]. simpl in r.
  assert (∀ p : Obj,
            p ∈ [<["updated_at" := JStr now]> (FormData.to_obj formData)] →
            p !! "longitude" = None ∧ p !! "latitude" = None) as Hp.
  { intros p ->%list_elem_of_singleton.
    rewrite !lookup_insert_ne by done. apply to_obj_no_coordinates. }
  destruct r as [d|e].
  - destruct (w _ s4) as [u1 s5]. destruct (w _ s5) as [u2 s6]. apply Hp.
  - apply Hp.
Qed.

(** C4 at a concrete submit: the geocoder resolves the form's address to
    coordinates, the variables handed to [mutate] hold those coordinates, and
    the update request that follows is sent without them. *)
Theorem handleSubmit_drops_geocoded_coordinates :
  let formData := initialFormData seattle_office in
  let t := trace (canned_world geocoding_backend)
                 (handleSubmit seattle_office formData) () in
  t = [ Ev PreventDefault ();
        Ev (GeocodeAddress "1 Main St, Seattle, WA 98101") (Ok (Some seattle_coords));
        Ev DateNow "2024-05-01T12:00:00.000Z";
        Ev (Fetch (update_query UpdateLocation "loc-1" (FormData.to_obj formData)
                                "2024-05-01T12:00:00.000Z") Single) (Ok ∅);
        Ev (InvalidateQueries "locations") ();
        Ev OnClose () ]
  ∧ submit_variables formData (Some seattle_coords) !! "longitude"
    = Some (JNum (Finite (-12233 # 100)))
  ∧ submit_variables formData (Some seattle_coords) !! "latitude"
    = Some (JNum (Finite (476 # 10)))
  ∧ ∀ payload : Obj, payload ∈ sent_updates t →
      payload !! "longitude" = None ∧ payload !! "latitude" = None.
Proof.
  intros formData t. split; [reflexivity|].
  split; [reflexivity|]. split; [reflexivity|].
  intros payload. apply handleSubmit_update_has_no_coordinates.
Qed.

(** ** Criticality *)

Lemma handleSubmit_sends_form_fields {S} (w : World Obj S)
    (location : Location.t) (formData : FormData.t) (s : S) (payload : Obj) :
  payload ∈ sent_updates (trace w (handleSubmit location formData) s) →
  ∃ now : string,
    payload = <["updated_at" := JStr now]> (FormData.to_obj formData).
Proof.
  unfold trace. rewrite exec_handleSubmit.
  destruct (w PreventDefault s) as [u s1].
  destruct (w _ s1) as [g s2]. simpl in g. destruct g as [coords|e].
  2: { cbn. by intros ?%elem_of_nil. }
  destruct (w DateNow s2) as [now s3]. cbv zeta.
  destruct (w _ s3) as [r s4]. simpl in r.
  destruct r as [d|e].
  - destruct (w _ s4) as [u1 s5]. destruct (w _ s5) as [u2 s6].
    intros ->%list_elem_of_singleton. by exists now.
  - intros ->%list_elem_of_singleton. by exists now.
Qed.

Lemma to_obj_criticality (formData : FormData.t) :
  FormData.to_obj formData !! "criticality"
  = Some (JStr (FormData.criticality formData)).
Proof. unfold FormData.to_obj. by simplify_map_eq. Qed.




(** ** The location map *)

Lemma withinb_within lo hi n : withinb lo hi n = true ↔ within lo hi n.
Proof.
  destruct n as [| |q|]; simpl; try (split; [discriminate|done]).
  by rewrite andb_true_iff, !Qle_bool_iff.
Qed.

Lemma lt_negb_le (x y : Q) :
  match (x ?= y)%Q with Lt => true | _ => false end = negb (Qle_bool y x).
Proof.
  destruct (Qle_bool y x) eqn:Hle; simpl.
  - apply Qle_bool_iff in Hle.
    destruct (x ?= y)%Q eqn:Hc; try reflexivity.
    apply Qlt_alt in Hc. by apply Qlt_not_le in Hc.
  - destruct (x ?= y)%Q eqn:Hc; try reflexivity.
    + apply Qeq_alt in Hc.
      assert (Qle_bool y x = true) as E; [|congruence].
      apply Qle_bool_iff. rewrite Hc. apply Qle_refl.
    + apply Qgt_alt in Hc.
      assert (Qle_bool y x = true) as E; [|congruence].
      apply Qle_bool_iff. by apply Qlt_le_weak.
Qed.

(** The source's range test is the complement of [withinb]. *)
Lemma validate_withinb (lo hi : Z) (n : JsNumber) :
  isNaN n || num_lt n (num lo) || num_gt n (num hi) = negb (withinb lo hi n).
Proof.
  destruct n as [| |q|]; try reflexivity.
  unfold num_gt, num, withinb. cbn [isNaN num_lt orb].
  by rewrite !lt_negb_le, negb_andb.
Qed.

Lemma Math_min_within lo hi a b :
  within lo hi a → within lo hi b → within lo hi (Math_min a b).
Proof.
  destruct a as [| |x|], b as [| |y|]; try done.
  intros Ha Hb. unfold Math_min. by destruct (num_lt _ _).
Qed.

Lemma Math_max_within lo hi a b :
  within lo hi a → within lo hi b → within lo hi (Math_max a b).
Proof.
  destruct a as [| |x|], b as [| |y|]; try done.
  intros Ha Hb. unfold Math_max. by destruct (num_lt _ _).
Qed.

Section MapProofs.
Variable parseFloat : JsValue → JsNumber.
Variable selectedLocationId : option string.

Local Abbreviation add := (LocationMap.addLocation parseFloat selectedLocationId).
Local Abbreviation plot := (plottable parseFloat).
Local Abbreviation rej := (rejected parseFloat).
Local Abbreviation feat := (feature_of parseFloat selectedLocationId).

Lemma plottable_spec l :
plot l = true ↔
truthy (Location.longitude l) = true
∧ truthy (Location.latitude l) = true
∧ within (-180) 180 (parseFloat (Location.longitude l))
∧ within (-90) 90 (parseFloat (Location.latitude l)).
Proof.
unfold plottable.
rewrite !andb_true_iff, !withinb_within. tauto.
Qed.

(** The source's validation, in terms of [withinb]. *)
Lemma validation_fails l :
(let lon := parseFloat (Location.longitude l) in
 let lat := parseFloat (Location.latitude l) in
 isNaN lon || isNaN lat
 || num_lt lon (num (-180)) || num_gt lon (num 180)
 || num_lt lat (num (-90)) || num_gt lat (num 90))
= negb (withinb (-180) 180 (parseFloat (Location.longitude l))
        && withinb (-90) 90 (parseFloat (Location.latitude l))).
Proof.
cbv zeta. rewrite negb_andb, <- !validate_withinb.
destruct (isNaN _), (isNaN _), (num_lt _ _), (num_gt _ _),
         (num_lt _ _), (num_gt _ _); reflexivity.
Qed.

(** One step of the loop: a plot location adds its point to both
  sources and widens the bounds, a rejected one is warned about, any
  other is passed over. *)
Lemma addLocation_step st l :
add st l =
if plot l then
  LocationMap.mkState
    (Some match LocationMap.mapBounds st with
          | None => atlas.mkBoundingBox (atlas.point (feat l))
                                        (atlas.point (feat l))
          | Some b =>
              atlas.mkBoundingBox
                (Math_min (atlas.getSouthWest b).1 (atlas.point (feat l)).1,
                 Math_min (atlas.getSouthWest b).2 (atlas.point (feat l)).2)
                (Math_max (atlas.getNorthEast b).1 (atlas.point (feat l)).1,
                 Math_max (atlas.getNorthEast b).2 (atlas.point (feat l)).2)
          end)
    (LocationMap.dataSource st ++ [feat l])
    (LocationMap.clusterSource st ++ [feat l])
    (LocationMap.warned st) (LocationMap.camera st)
else if rej l then
  LocationMap.mkState (LocationMap.mapBounds st) (LocationMap.dataSource st)
    (LocationMap.clusterSource st) (LocationMap.warned st ++ [l])
    (LocationMap.camera st)
else st.
Proof.
unfold LocationMap.addLocation, plottable, rejected.
rewrite validation_fails.
destruct (truthy (Location.longitude l)); [|reflexivity].
destruct (truthy (Location.latitude l)); [|reflexivity].
cbn [negb orb andb].
destruct (withinb (-180) 180 _); [|reflexivity].
destruct (withinb (-90) 90 _); reflexivity.
Qed.

Lemma plottable_on_globe l : plot l = true → on_globe (atlas.point (feat l)).
Proof. intros (_ & _ & Hlon & Hlat)%plottable_spec. by split. Qed.

(** The whole loop, from any starting state. *)
Lemma fold_addLocation ls st :
let st' := fold_left add ls st in
LocationMap.dataSource st'
  = LocationMap.dataSource st ++ map feat (List.filter plot ls)
∧ LocationMap.clusterSource st'
  = LocationMap.clusterSource st ++ map feat (List.filter plot ls)
∧ LocationMap.warned st' = LocationMap.warned st ++ List.filter rej ls
∧ LocationMap.camera st' = LocationMap.camera st
∧ ((∀ b, LocationMap.mapBounds st = Some b → box_on_globe b) →
   ∀ b, LocationMap.mapBounds st' = Some b → box_on_globe b).
Proof.
revert st. induction ls as [|l ls IH]; intros st; cbn [fold_left List.filter map].
- by rewrite !app_nil_r.
- destruct (IH (add st l)) as (Hd & Hc & Hw & Hcam & Hb). clear IH.
  cbv zeta in *. rewrite Hd, Hc, Hw, Hcam. clear Hd Hc Hw Hcam.
  rewrite addLocation_step in *.
  assert (rej l = true → plot l = false) as Hdisj.
  { unfold rejected, plottable.
    destruct (truthy _), (truthy _), (withinb _ _ _), (withinb _ _ _); done. }
  destruct (plot l) eqn:Hp.
  + destruct (rej l) eqn:Hr; [by specialize (Hdisj eq_refl)|].
    cbn [LocationMap.dataSource LocationMap.clusterSource LocationMap.warned
         LocationMap.camera LocationMap.mapBounds map] in *.
    rewrite <- !app_assoc. split_and!; try done.
    intros Hst. apply Hb. intros b [= <-].
    pose proof (plottable_on_globe l Hp) as [Hlon Hlat].
    destruct (LocationMap.mapBounds st) as [b0|] eqn:Hb0.
    * destruct (Hst b0 eq_refl) as [[? ?] [? ?]].
      split; split; cbn; by apply Math_min_within || apply Math_max_within.
    * by split.
  + destruct (rej l) eqn:Hr;
      cbn [LocationMap.dataSource LocationMap.clusterSource LocationMap.warned
           LocationMap.camera LocationMap.mapBounds map] in *;
      rewrite <- ?app_assoc; split_and!; done.
Qed.

End MapProofs.

Example map_of_three_sites :
  let st := LocationMap.addLocationPoints parseFloat_sample (Some "loc-1")
              [seattle_on_map; far_site; unplaced_site] in
  map atlas.point (LocationMap.dataSource st)
    = [(Finite (-12233 # 100), Finite (476 # 10))]
  ∧ map atlas.prop_selected (LocationMap.dataSource st) = [true]
  ∧ LocationMap.clusterSource st = LocationMap.dataSource st
  ∧ LocationMap.warned st = [far_site]
  ∧ atlas.bounds <$> LocationMap.camera st
    = Some (atlas.mkBoundingBox (Finite (-12233 # 100), Finite (476 # 10))
                                (Finite (-12233 # 100), Finite (476 # 10))).
Proof. repeat split. Qed.

(** ** In-process validation *)

Lemma exec_validateAndUpdate {S} (w : World Obj S)
    (newAddress : AddressFormData.t) (st : AddressForm.State) s :
  exec w (AddressForm.validateAndUpdate newAddress st) s =
  let auto := AddressForm.isAutocompleteEnabled st in
  let '(r, s1) := w (ValidateAddress newAddress) s in
  match r with
  | Ok true =>
      (Resolved (AddressForm.mkState auto false None),
       [Ev (ValidateAddress newAddress) r], s1)
  | Ok false =>
      (Resolved (AddressForm.mkState auto false
                   (Some "Please enter a valid address")),
       [Ev (ValidateAddress newAddress) r], s1)
  | Err e =>
      let '(u, s2) := w (ConsoleError "Address validation failed:" e) s1 in
      (Resolved (AddressForm.mkState auto false None),
       [Ev (ValidateAddress newAddress) r;
        Ev (ConsoleError "Address validation failed:" e) u], s2)
  end.
Proof.
  unfold AddressForm.validateAndUpdate. simpl.
  destruct (w _ s) as [r s1]. simpl in r.
  destruct r as [[|]|e]; simpl; try done.
  by destruct (w _ s1) as [u s2].
Qed.




(** * More of the code *)

(** ** Predicates of the other list queries *)

Lemma getCompanies_query_filters fs :
  filters (getCompanies_query fs) = company_predicates fs.
Proof.
  unfold getCompanies_query, company_predicates.
  rewrite filters_order, !if_truthy_eq.
  rewrite (if_truthy_or ["name"; "address_city"; "address_state"]).
  - simpl. by rewrite <- !app_assoc.
  - intros s. unfold ilike_any. simpl. rewrite !append_assoc. reflexivity.
Qed.

Lemma getCircuits_query_filters fs :
  filters (getCircuits_query fs) = circuit_predicates fs.
Proof.
  unfold getCircuits_query, circuit_predicates.
  rewrite filters_order, !if_truthy_eq.
  rewrite (if_truthy_or ["carrier"; "type"; "bandwidth"]).
  - simpl. by rewrite <- !app_assoc.
  - intros s. unfold ilike_any. simpl. rewrite !append_assoc. reflexivity.
Qed.

Lemma getDashboardStats_query_filters fs :
  filters (getDashboardStats_query fs) = dashboard_predicates fs.
Proof.
  unfold getDashboardStats_query, dashboard_predicates.
  by rewrite !if_truthy_eq.
Qed.

(** X1: getCompanies sends one select on companies, ordered by name
    ascending, with an ilike disjunction over name, address_city and
    address_state for a provided search and one equality predicate on
    address_state and address_city for each that is provided; absent and
    empty fields add nothing. *)
Theorem getCompanies_predicates {S} (w : World Obj S) (s : S)
    (fs : option CompanyFilters.t) :
  requests (trace w (getCompanies fs) s) = [getCompanies_query fs]
  ∧ target (getCompanies_query fs) = "companies"
  ∧ ordering (getCompanies_query fs) = Some ("name", true)
  ∧ filters (getCompanies_query fs) = company_predicates fs
  ∧ List.filter (is_equality_on "address_state") (company_predicates fs)
    = equality_on "address_state" (fs ≫= CompanyFilters.state)
  ∧ List.filter (is_equality_on "address_city") (company_predicates fs)
    = equality_on "address_city" (fs ≫= CompanyFilters.city)
  ∧ List.filter is_disjunction (company_predicates fs)
    = search_over ["name"; "address_city"; "address_state"]
        (fs ≫= CompanyFilters.search).
Proof.
  split_and!.
  - unfold requests, trace, getCompanies. rewrite (exec_await_return w _ Many).
    by destruct (w _ s) as [r s1].
  - unfold getCompanies_query, if_truthy.
    destruct fs as [[[?|] [?|] [?|]]|]; cbn; repeat case_match; reflexivity.
  - done.
  - apply getCompanies_query_filters.
  - unfold company_predicates, search_over, equality_on.
    destruct (provided _), (provided _), (provided _); reflexivity.
  - unfold company_predicates, search_over, equality_on.
    destruct (provided _), (provided _), (provided _); reflexivity.
  - unfold company_predicates, search_over, equality_on.
    destruct (provided _), (provided _), (provided _); reflexivity.
Qed.

(** X2: getCircuits sends one select on circuits, ordered by carrier
    ascending, with an ilike disjunction over carrier, type and bandwidth for
    a provided search and one equality predicate on carrier, type, status and
    location_id for each that is provided; absent and empty fields add
    nothing. *)
Theorem getCircuits_predicates {S} (w : World Obj S) (s : S)
    (fs : option CircuitFilters.t) :
  requests (trace w (getCircuits fs) s) = [getCircuits_query fs]
  ∧ target (getCircuits_query fs) = "circuits"
  ∧ ordering (getCircuits_query fs) = Some ("carrier", true)
  ∧ filters (getCircuits_query fs) = circuit_predicates fs
  ∧ List.filter is_disjunction (circuit_predicates fs)
    = search_over ["carrier"; "type"; "bandwidth"] (fs ≫= CircuitFilters.search)
  ∧ List.filter (is_equality_on "carrier") (circuit_predicates fs)
    = equality_on "carrier" (fs ≫= CircuitFilters.carrier)
  ∧ List.filter (is_equality_on "type") (circuit_predicates fs)
    = equality_on "type" (fs ≫= CircuitFilters.type)
  ∧ List.filter (is_equality_on "status") (circuit_predicates fs)
    = equality_on "status" (fs ≫= CircuitFilters.status)
  ∧ List.filter (is_equality_on "location_id") (circuit_predicates fs)
    = equality_on "location_id" (fs ≫= CircuitFilters.location_id).
Proof.
  split_and!.
  - unfold requests, trace, getCircuits. rewrite (exec_await_return w _ Many).
    by destruct (w _ s) as [r s1].
  - unfold getCircuits_query, if_truthy.
    destruct fs as [[[?|] [?|] [?|] [?|] [?|]]|]; cbn; repeat case_match;
      reflexivity.
  - done.
  - apply getCircuits_query_filters.
  - unfold circuit_predicates, search_over, equality_on.
    destruct (provided _), (provided _), (provided _), (provided _),
             (provided _); reflexivity.
  - unfold circuit_predicates, search_over, equality_on.
    destruct (provided _), (provided _), (provided _), (provided _),
             (provided _); reflexivity.
  - unfold circuit_predicates, search_over, equality_on.
    destruct (provided _), (provided _), (provided _), (provided _),
             (provided _); reflexivity.
  - unfold circuit_predicates, search_over, equality_on.
    destruct (provided _), (provided _), (provided _), (provided _),
             (provided _); reflexivity.
  - unfold circuit_predicates, search_over, equality_on.
    destruct (provided _), (provided _), (provided _), (provided _),
             (provided _); reflexivity.
Qed.

(** ** Scope of the dashboard statistics *)

(** X3: the statistics query is narrowed by the backend, not in-process: a
    provided location_id adds one equality predicate on location_id, a
    provided company_id one on the joined location.company_id, and without
    filters the query has no predicate and covers every circuit. *)
Theorem getDashboardStats_scope {S} (w : World CircuitStat S) (s : S)
    (fs : option DashboardFilters.t) :
  requests (trace w (getDashboardStats fs) s) = [getDashboardStats_query fs]
  ∧ filters (getDashboardStats_query fs) = dashboard_predicates fs
  ∧ List.filter (is_equality_on "location_id") (dashboard_predicates fs)
    = equality_on "location_id" (fs ≫= DashboardFilters.location_id)
  ∧ List.filter (is_equality_on "location.company_id") (dashboard_predicates fs)
    = equality_on "location.company_id" (fs ≫= DashboardFilters.company_id)
  ∧ filters (getDashboardStats_query None) = [].
Proof.
  split.
  { unfold requests, trace. rewrite exec_getDashboardStats.
    by destruct (w _ s) as [r s1]. }
  split; [apply getDashboardStats_query_filters|].
  unfold dashboard_predicates, equality_on.
  destruct (provided _), (provided _); split_and!; reflexivity.
Qed.

Lemma count_status_perm s (a b : list CircuitStat) :
  a ≡ₚ b → count_status s a = count_status s b.
Proof.
  induction 1 as [|x a b _ IH|x y a|a b c _ IH1 _ IH2]; simpl; lia.
Qed.

Lemma sum_monthlycost_perm (a b : list CircuitStat) :
  a ≡ₚ b → sum_monthlycost a = sum_monthlycost b.
Proof.
  induction 1 as [|x a b _ IH|x y a|a b c _ IH1 _ IH2]; simpl; lia.
Qed.

(** X4: the statistics do not depend on the order in which the backend
    returns the circuits (the query asks for none): two answers that are
    permutations of each other give the same result. *)
Theorem getDashboardStats_order_irrelevant {S S'}
    (w : World CircuitStat S) (w' : World CircuitStat S') (s : S) (s' : S')
    (fs : option DashboardFilters.t) (circuits circuits' : list CircuitStat) :
  (w (Fetch (getDashboardStats_query fs) Many) s).1 = Ok circuits →
  (w' (Fetch (getDashboardStats_query fs) Many) s').1 = Ok circuits' →
  circuits ≡ₚ circuits' →
  outcome w (getDashboardStats fs) s = outcome w' (getDashboardStats fs) s'.
Proof.
  intros Hw Hw' Hp. unfold outcome. rewrite !exec_getDashboardStats.
  destruct (w _ s) as [r s1], (w' _ s') as [r' s1']. simpl in *. subst r r'.
  unfold stats_of.
  by rewrite (Permutation_length Hp), !(count_status_perm _ _ _ Hp),
             (sum_monthlycost_perm _ _ Hp).
Qed.

Lemma getDashboardStats_order_irrelevant_witness :
  outcome (canned_world circuits_backend) (getDashboardStats None) ()
  = outcome (canned_world circuits_backend_reversed) (getDashboardStats None) ().
Proof.
  apply (getDashboardStats_order_irrelevant
           (canned_world circuits_backend) (canned_world circuits_backend_reversed)
           () () None three_circuits (rev three_circuits)).
  - reflexivity.
  - reflexivity.
  - apply Permutation_rev.
Defined.

(** ** Creating records *)

(** X5: each create operation sends exactly one request, an insert into its
    table whose only row is the caller's record unchanged; it reads no clock,
    so unlike the updates it adds no timestamp; it resolves to the row the
    backend returns and rejects with the backend's error. *)
Theorem create_sends_record_unchanged {S} (c : CreateOp) (record : Obj)
    (w : World Obj S) (s : S) :
  let q := qb.from (create_table c) |> qb.insert [record] |> qb.select_back in
  let r := (w (Fetch q Single) s).1 in
  trace w (create_op c record) s = [Ev (Fetch q Single) r]
  ∧ verb q = Insert [record]
  ∧ filters q = []
  ∧ outcome w (create_op c record) s
    = match r with Ok row => Resolved row | Err e => Rejected e end.
Proof.
  intros q r. subst q r. unfold trace, outcome.
  destruct c; cbn [create_op create_table];
    unfold createCompany, createLocation, createCircuit;
    rewrite (exec_await_return w _ Single);
    by destruct (w _ s) as [r s1].
Qed.

(** ** Which rows an operation touches *)

(** X6: the operations that take a key address that row and no other: every
    request of getCompany, getLocation, getCircuit, updateCompany,
    updateLocation and updateCircuit carries the single predicate id = the
    given id, updateUserRole the single predicate user_id = the given user
    id, and each sends exactly one request. *)
Theorem keyed_operations_address_one_row {S} (op : ApiOp)
    (w : World (row_of op) S) (s : S) (column value : string) :
  row_key op = Some (column, value) →
  ∃ q, requests (trace w (run op) s) = [q] ∧ filters q = [FEq column value].
Proof.
  unfold requests, trace.
  destruct op; cbn [row_key]; intros [= <- <-]; cbn [run row_of] in *.
  all: run_op w.
  all: eexists; split; reflexivity.
Qed.

Lemma keyed_operations_address_one_row_witness :
  ∃ q, requests (trace (canned_world no_answers)
                       (run (OpUpdateUserRole "u-42" admin)) ()) = [q]
       ∧ filters q = [FEq "user_id" "u-42"].
Proof.
  apply (keyed_operations_address_one_row (OpUpdateUserRole "u-42" admin)
           (canned_world no_answers) () "user_id" "u-42").
  reflexivity.
Defined.

Lemma verb_if_truthy_eq column field q :
  verb (if_truthy field (qb.eq column) q) = verb q.
Proof. unfold if_truthy. destruct field; [|done]. by destruct (truthy _). Qed.

Lemma verb_if_truthy_or (f : string → string) field q :
  verb (if_truthy field (λ s, qb.or (f s)) q) = verb q.
Proof. unfold if_truthy. destruct field; [|done]. by destruct (truthy _). Qed.

Lemma list_query_verbs cf lf kf df :
  writes (getCompanies_query cf) = false
  ∧ writes (getLocations_query lf) = false
  ∧ writes (getCircuits_query kf) = false
  ∧ writes (getDashboardStats_query df) = false.
Proof.
  unfold writes, getCompanies_query, getLocations_query, getCircuits_query,
    getDashboardStats_query.
  cbn [qb.order qb.throwOnError verb].
  by rewrite !verb_if_truthy_eq, !verb_if_truthy_or.
Qed.

(** X7: the operations named get... (getCurrentUserProfile aside, which may
    create a profile) never write: none of the requests they send is an
    insert or an update, whatever the backend answers. *)
Theorem read_operations_never_write {S} (op : ApiOp)
    (w : World (row_of op) S) (s : S) (q : Query) :
  reads_only op = true →
  q ∈ requests (trace w (run op) s) →
  writes q = false.
Proof.
  unfold requests, trace.
  destruct op; cbn [reads_only]; intros [=]; cbn [run row_of] in *.
  all: run_op w.
  all: cbn; intros Hq; repeat (apply elem_of_cons in Hq as [->|Hq]);
    try (by apply elem_of_nil in Hq); try reflexivity.
  all: first [ apply (list_query_verbs (Some _) None None None)
             | apply (list_query_verbs None None None None)
             | apply (proj1 (proj2 (list_query_verbs None (Some _) None None)))
             | apply (proj1 (proj2 (proj2 (list_query_verbs None None (Some _) None))))
             | apply (proj2 (proj2 (proj2 (list_query_verbs None None None (Some _))))) ].
Qed.

Lemma read_operations_never_write_witness :
  writes (getLocations_query sample_location_filters) = false.
Proof.
  apply (read_operations_never_write (OpGetLocations sample_location_filters)
           (canned_world no_answers) ()).
  - reflexivity.
  - simpl. apply list_elem_of_here.
Defined.

(** ** The profile operations and the signed-in user *)

(** X8: both profile operations ask who is signed in before anything else:
    when that fails or returns no user they reject, with the auth error or
    with "No authenticated user", and nothing is sent to the user_profiles
    table and no clock is read. *)
Theorem profile_operations_require_user {S} (w : World Obj S) (s : S)
    (data : Obj) :
  let u := (w AuthGetUser s).1 in
  (∀ user, u ≠ Ok (Some user)) →
  outcome w (updateUserProfile data) s = Rejected (no_user_error u)
  ∧ trace w (updateUserProfile data) s = [Ev AuthGetUser u]
  ∧ outcome w getCurrentUserProfile s = Rejected (no_user_error u)
  ∧ trace w getCurrentUserProfile s = [Ev AuthGetUser u].
Proof.
  intros u Hu. subst u. unfold outcome, trace.
  rewrite exec_updateUserProfile, exec_getCurrentUserProfile.
  destruct (w AuthGetUser s) as [u s1]. simpl in u, Hu.
  destruct u as [[user|]|e]; [by destruct (Hu user)| |]; by cbn.
Qed.

Lemma profile_operations_require_user_witness :
  outcome (canned_world failing_backend) (updateUserProfile ∅) ()
    = Rejected (BackendError "not signed in")
  ∧ trace (canned_world failing_backend) (updateUserProfile ∅) ()
    = [Ev AuthGetUser (Err (BackendError "not signed in"))]
  ∧ outcome (canned_world failing_backend) getCurrentUserProfile ()
    = Rejected (BackendError "not signed in")
  ∧ trace (canned_world failing_backend) getCurrentUserProfile ()
    = [Ev AuthGetUser (Err (BackendError "not signed in"))].
Proof.
  apply (profile_operations_require_user (canned_world failing_backend) () ∅).
  simpl. discriminate.
Defined.

(** X9: updateUserProfile can only touch the caller's own profile: any
    request it sends is the update of user_profiles restricted to user_id =
    the id of the user the auth service returned, carrying the caller's
    fields with updated_at set from the client's clock. *)
Theorem updateUserProfile_updates_own_row {S} (w : World Obj S) (s : S)
    (data : Obj) (q : Query) :
  q ∈ requests (trace w (updateUserProfile data) s) →
  ∃ (user : User.t) (now : string),
    (w AuthGetUser s).1 = Ok (Some user)
    ∧ q = own_profile_update user data now
    ∧ filters q = [FEq "user_id" (User.id user)]
    ∧ requests (trace w (updateUserProfile data) s) = [q].
Proof.
  unfold requests, trace. rewrite exec_updateUserProfile.
  destruct (w AuthGetUser s) as [u s1]. simpl in u.
  destruct u as [[user|]|e]; try (cbn; by intros ?%elem_of_nil).
  destruct (w DateNow s1) as [now s2]. cbv zeta.
  destruct (w _ s2) as [r s3]. cbn.
  intros ->%list_elem_of_singleton. by exists user, now.
Qed.

Lemma updateUserProfile_updates_own_row_witness :
  ∃ (user : User.t) (now : string),
    (canned_world known_user_backend AuthGetUser ()).1 = Ok (Some user)
    ∧ own_profile_update new_user {[ "phone" := JStr "555-0100" ]}
                         "2024-05-01T12:00:00.000Z"
      = own_profile_update user {[ "phone" := JStr "555-0100" ]} now
    ∧ filters (own_profile_update new_user {[ "phone" := JStr "555-0100" ]}
                                  "2024-05-01T12:00:00.000Z")
      = [FEq "user_id" (User.id user)]
    ∧ requests (trace (canned_world known_user_backend)
                      (updateUserProfile {[ "phone" := JStr "555-0100" ]}) ())
      = [own_profile_update new_user {[ "phone" := JStr "555-0100" ]}
                            "2024-05-01T12:00:00.000Z"].
Proof.
  apply (updateUserProfile_updates_own_row (canned_world known_user_backend) ()
           {[ "phone" := JStr "555-0100" ]}).
  simpl. apply list_elem_of_here.
Defined.

(** X10: getCurrentUserProfile never creates a second profile: when the
    lookup returns the user's row it resolves to that row after exactly the
    lookup, and in every run an insert is sent at most once and only after
    the lookup answered with no row. *)
Theorem getCurrentUserProfile_inserts_only_when_missing {S} (w : World Obj S)
    (s : S) :
  let t := trace w getCurrentUserProfile s in
  (∀ user s1 profile,
     w AuthGetUser s = (Ok (Some user), s1) →
     (w (Fetch (profile_select user) MaybeSingle) s1).1 = Ok (Some profile) →
     outcome w getCurrentUserProfile s = Resolved profile
     ∧ requests t = [profile_select user])
  ∧ (length (List.filter writes (requests t)) ≤ 1)%nat
  ∧ (∀ q, q ∈ requests t → writes q = true →
       ∃ user, q = profile_insert user
               ∧ Ev (Fetch (profile_select user) MaybeSingle) (Ok None) ∈ t).
Proof.
  intros t. subst t. unfold outcome, requests, trace.
  rewrite exec_getCurrentUserProfile.
  split_and!.
  - intros user s1 profile Hu Hsel. rewrite Hu.
    destruct (w _ s1) as [r s2]. cbn [fst] in Hsel. subst r. by cbn.
  - destruct (w AuthGetUser s) as [u s1]. simpl in u.
    destruct u as [[user|]|e]; try (cbn; lia).
    destruct (w (Fetch (profile_select user) MaybeSingle) s1) as [r s2].
    simpl in r. destruct r as [[data|]|error].
    + cbn. lia.
    + destruct (w (Fetch (profile_insert user) Single) s2) as [r' s3].
      simpl in r'. destruct r' as [newProfile|createError].
      * cbn. lia.
      * destruct (w _ s3) as [l s4]. cbn. lia.
    + destruct (w _ s2) as [l s3]. cbn. lia.
  - intros q.
    destruct (w AuthGetUser s) as [u s1]. simpl in u.
    destruct u as [[user|]|e]; try (cbn; by intros ?%elem_of_nil).
    destruct (w (Fetch (profile_select user) MaybeSingle) s1) as [r s2].
    simpl in r. destruct r as [[data|]|error].
    + cbn. intros ->%list_elem_of_singleton. discriminate.
    + destruct (w (Fetch (profile_insert user) Single) s2) as [r' s3].
      simpl in r'.
      assert (∀ rest : list (Event Obj),
                q ∈ [profile_select user; profile_insert user] →
                writes q = true →
                ∃ user0, q = profile_insert user0
                  ∧ Ev (Fetch (profile_select user0) MaybeSingle) (Ok None)
                    ∈ Ev AuthGetUser (Ok (Some user))
                       :: Ev (Fetch (profile_select user) MaybeSingle) (Ok None)
                       :: rest) as Hq.
      { intros rest Hin Hw.
        apply elem_of_cons in Hin as [->|Hin]; [discriminate|].
        apply list_elem_of_singleton in Hin as ->.
        exists user. split; [done|].
        apply list_elem_of_further, list_elem_of_here. }
      destruct r' as [newProfile|createError]; [apply Hq|].
      destruct (w _ s3) as [l s4]. apply Hq.
    + destruct (w _ s2) as [l s3]. cbn.
      intros ->%list_elem_of_singleton. discriminate.
Qed.

Lemma getCurrentUserProfile_inserts_only_when_missing_witness :
  outcome (canned_world known_user_backend) getCurrentUserProfile ()
    = Resolved existing_profile
  ∧ requests (trace (canned_world known_user_backend) getCurrentUserProfile ())
    = [profile_select new_user].
Proof.
  apply (proj1 (getCurrentUserProfile_inserts_only_when_missing
                  (canned_world known_user_backend) ())
               new_user () existing_profile eq_refl eq_refl).
Defined.

(** ** Environment variables *)

(** X11: getEnvironmentVariable never rejects, whatever the backend does, and
    what it resolves to is null or a truthy value: an empty, missing or null
    value property, and a failed call, all come out as null. *)
Theorem getEnvironmentVariable_never_rejects {S} (w : World Obj S) (s : S)
    (key : string) :
  ∃ v, outcome w (getEnvironmentVariable key) s = Resolved v
       ∧ (v = JNull ∨ truthy v = true)
       ∧ length (requests (trace w (getEnvironmentVariable key) s)) = 1%nat.
Proof.
  unfold outcome, requests, trace. rewrite exec_getEnvironmentVariable.
  cbv zeta. destruct (w _ s) as [r s1]. simpl in r.
  destruct r as [data|e].
  - eexists. split; [reflexivity|]. split; [|done].
    unfold js_or. destruct (truthy (get data "value")) eqn:Ht; auto.
  - destruct (w _ s1) as [u s2]. eexists. split; [reflexivity|]. by split; [left|].
Qed.
